(** * Dashboard.tsx: the listings dashboard of the OLX scraper

    A shallow embedding of [frontend/src/components/Dashboard.tsx]: the
    values the component receives from the HTTP API, its React state, its
    asynchronous handlers ([fetchListings], [scrapeListings], [markAsSeen],
    [exportListings]), the memoised [filteredAndSortedListings] and the
    rendered view, followed by the properties of the component. *)

From Stdlib Require Import List String Ascii ZArith Lia Bool.
From Stdlib Require Import Permutation Sorted DecimalString.
From Stdlib Require Import DecimalPos DecimalZ.
Import ListNotations.

Local Open Scope string_scope.
Local Open Scope Z_scope.

(** ** JavaScript values and the runtime operations the component uses *)

Module JS.

(** A value decoded from a JSON body.  Numbers are integral (nothing in
    the component computes with fractions); an object is the list of its
    own properties. *)
#[warnings="-register-all"]
Inductive value : Type :=
| JNull
| JBool (b : bool)
| JNum (n : Z)
| JStr (s : string)
| JArr (items : list value)
| JObj (props : list (string * value)).

(** The result of a property read or of [?.]: [undefined] or a value. *)
Inductive jsval : Type :=
| Undefined
| Val (v : value).

Coercion Val : value >-> jsval.

(** What a [catch] clause can receive. *)
Record AxiosError : Type := mkAxiosError {
  err_status : option Z;      (* err.response?.status *)
  err_data : jsval;           (* err.response?.data *)
  err_code : option string;   (* err.code *)
  err_message : string        (* err.message *)
}.

Inductive exn : Type :=
| IsAxiosError (e : AxiosError)
| TypeError.

Inductive result (A : Type) : Type :=
| Ok (a : A)
| Throw (e : exn).

Arguments Ok {A} a.
Arguments Throw {A} e.

Definition rbind {A B} (r : result A) (f : A -> result B) : result B :=
  match r with
  | Ok a => f a
  | Throw e => Throw e
  end.

Inductive jstype : Type :=
| TUndefined | TObject | TBoolean | TNumber | TString.

(** [typeof v]; note [typeof null === 'object'] and arrays are objects. *)
Definition typeof (v : jsval) : jstype :=
  match v with
  | Undefined => TUndefined
  | Val JNull => TObject
  | Val (JBool _) => TBoolean
  | Val (JNum _) => TNumber
  | Val (JStr _) => TString
  | Val (JArr _) => TObject
  | Val (JObj _) => TObject
  end.

Definition jstype_eqb (a b : jstype) : bool :=
  match a, b with
  | TUndefined, TUndefined | TObject, TObject | TBoolean, TBoolean
  | TNumber, TNumber | TString, TString => true
  | _, _ => false
  end.

(** Truthiness: [false], [0], [''], [null] and [undefined] are falsy. *)
Definition ToBoolean (v : jsval) : bool :=
  match v with
  | Undefined => false
  | Val JNull => false
  | Val (JBool b) => b
  | Val (JNum n) => negb (n =? 0)
  | Val (JStr s) => negb (s =? "")%string
  | Val (JArr _) => true
  | Val (JObj _) => true
  end.

Fixpoint lookup (k : string) (props : list (string * value)) : jsval :=
  match props with
  | [] => Undefined
  | (k', v) :: rest => if (k =? k')%string then Val v else lookup k rest
  end.

(** [v.k] for a property name [k] that no prototype defines (all the
    names the component reads are such): reading from [null] or
    [undefined] throws, a primitive or an array has no such property. *)
Definition get (v : jsval) (k : string) : result jsval :=
  match v with
  | Undefined => Throw TypeError
  | Val JNull => Throw TypeError
  | Val (JObj props) => Ok (lookup k props)
  | Val _ => Ok Undefined
  end.

(** [v?.k] *)
Definition get_opt (v : jsval) (k : string) : jsval :=
  match v with
  | Val (JObj props) => lookup k props
  | _ => Undefined
  end.

Definition string_of_Z (n : Z) : string :=
  NilZero.string_of_int (Z.to_int n).

Definition join_comma (l : list string) : string :=
  match l with
  | [] => ""
  | s :: rest => fold_left (fun acc t => acc ++ "," ++ t) rest s
  end.

(** String conversion, as a template literal performs it. *)
Fixpoint value_to_string (v : value) : string :=
  match v with
  | JNull => "null"
  | JBool true => "true"
  | JBool false => "false"
  | JNum n => string_of_Z n
  | JStr s => s
  | JArr items =>
      join_comma
        (map (fun x => match x with JNull => "" | _ => value_to_string x end)
             items)
  | JObj _ => "[object Object]"
  end.

Definition ToString (v : jsval) : string :=
  match v with
  | Undefined => "undefined"
  | Val x => value_to_string x
  end.

(** [a || b] on values. *)
Definition or_else (a b : jsval) : jsval :=
  if ToBoolean a then a else b.

Definition lower_ascii (c : ascii) : ascii :=
  let n := nat_of_ascii c in
  if ((65 <=? n) && (n <=? 90))%nat then ascii_of_nat (n + 32) else c.

(** [s.toLowerCase()] on the ASCII range. *)
Fixpoint toLowerCase (s : string) : string :=
  match s with
  | EmptyString => EmptyString
  | String c rest => String (lower_ascii c) (toLowerCase rest)
  end.

(** [s.includes(t)]: [t] occurs in [s] at some position. *)
Fixpoint includes (s t : string) : bool :=
  if String.prefix t s then true
  else match s with
       | EmptyString => false
       | String _ rest => includes rest t
       end.

(** A method call [v.toLowerCase()] on a value read from an untyped
    object: only a string has the method. *)
Definition call_toLowerCase (v : jsval) : result string :=
  match v with
  | Val (JStr s) => Ok (toLowerCase s)
  | _ => Throw TypeError
  end.

(** [arr.filter(p)] where the callback may throw: the first exception
    aborts the call. *)
Fixpoint filterM {A} (p : A -> result bool) (l : list A) : result (list A) :=
  match l with
  | [] => Ok []
  | x :: rest =>
      rbind (p x) (fun keep =>
      rbind (filterM p rest) (fun rest' =>
      Ok (if keep then x :: rest' else rest')))
  end.

(** [arr.sort(cmp)]: a stable sort; a comparator result [<= 0] keeps the
    left argument first.  For a consistent comparator the outcome of a
    stable sort is unique, so insertion sort computes what the engine
    does. *)
Fixpoint sort_insert {A} (cmp : A -> A -> Z) (x : A) (l : list A) : list A :=
  match l with
  | [] => [x]
  | y :: rest =>
      if cmp x y <=? 0 then x :: y :: rest else y :: sort_insert cmp x rest
  end.

Fixpoint sort {A} (cmp : A -> A -> Z) (l : list A) : list A :=
  match l with
  | [] => []
  | x :: rest => sort_insert cmp x (sort cmp rest)
  end.

End JS.

Import JS.

Notation "x <-? r ;; k" := (rbind r (fun x => k))
  (at level 61, r at next level, right associativity).

(** Short-circuit [&&] and [||] on conditions that may throw. *)
Definition rand (a b : result bool) : result bool :=
  x <-? a ;; if x then b else Ok false.

Definition ror (a b : result bool) : result bool :=
  x <-? a ;; if x then Ok true else b.

Infix "&&&" := rand (at level 40, left associativity).
Infix "|||" := ror (at level 50, left associativity).

(** ** HTTP through axios *)

Module Axios.

Inductive method : Type := GET | POST.

Record Request : Type := mkRequest {
  req_method : method;
  req_url : string;
  req_body : option value;
  req_headers : list (string * string);
  req_withCredentials : bool;
  req_timeout : option Z
}.

(** A request either resolves with [response.data] or rejects. *)
Inductive outcome : Type :=
| Resolved (data : jsval)
| Rejected (e : exn).

(** The server as the component sees it: an answer to each request,
    given the requests made before it (most recent last). *)
Definition Server : Type := list Request -> Request -> outcome.

End Axios.

Import Axios.

(** ** Component state *)

Record Stats : Type := mkStats {
  total : jsval;
  unseen : jsval
}.

Record State : Type := mkState {
  token : option string;        (* from useAuth() *)
  listings : list value;
  loading : bool;
  error : option string;
  showOnlyUnseen : bool;
  scraping : bool;
  searchQuery : string;
  retryCount : Z;
  stats : Stats
}.

Definition setListings (v : list value) (s : State) : State :=
  mkState (token s) v (loading s) (error s) (showOnlyUnseen s) (scraping s)
          (searchQuery s) (retryCount s) (stats s).
Definition setLoading (v : bool) (s : State) : State :=
  mkState (token s) (listings s) v (error s) (showOnlyUnseen s) (scraping s)
          (searchQuery s) (retryCount s) (stats s).
Definition setError (v : option string) (s : State) : State :=
  mkState (token s) (listings s) (loading s) v (showOnlyUnseen s) (scraping s)
          (searchQuery s) (retryCount s) (stats s).
Definition setShowOnlyUnseen (v : bool) (s : State) : State :=
  mkState (token s) (listings s) (loading s) (error s) v (scraping s)
          (searchQuery s) (retryCount s) (stats s).
Definition setScraping (v : bool) (s : State) : State :=
  mkState (token s) (listings s) (loading s) (error s) (showOnlyUnseen s) v
          (searchQuery s) (retryCount s) (stats s).
Definition setSearchQuery (v : string) (s : State) : State :=
  mkState (token s) (listings s) (loading s) (error s) (showOnlyUnseen s)
          (scraping s) v (retryCount s) (stats s).
Definition setRetryCount (f : Z -> Z) (s : State) : State :=
  mkState (token s) (listings s) (loading s) (error s) (showOnlyUnseen s)
          (scraping s) (searchQuery s) (f (retryCount s)) (stats s).
Definition setStats (v : Stats) (s : State) : State :=
  mkState (token s) (listings s) (loading s) (error s) (showOnlyUnseen s)
          (scraping s) (searchQuery s) (retryCount s) v.

(** The state of the first render: the [useState] initial values. *)
Definition initial (tok : option string) : State :=
  mkState tok [] true None false false "" 0
          (mkStats (JNum 0) (JNum 0)).

(** ** Asynchronous handlers

    A handler is a tree of state updates, awaited requests and browser
    effects.  It reads [token], [showOnlyUnseen], ... from the render it
    was created in (a parameter of the handler), and writes the state only
    through the setters. *)

Inductive effect : Type :=
| Alert (msg : string)
| Logout
| Navigate (path : string).

Inductive Async (A : Type) : Type :=
| Ret (a : A)
| Raise (e : exn)
| Update (f : State -> State) (k : Async A)
| Await (r : Request) (k : outcome -> Async A)
| Perform (e : effect) (k : Async A).

Arguments Ret {A} a.
Arguments Raise {A} e.
Arguments Update {A} f k.
Arguments Await {A} r k.
Arguments Perform {A} e k.

Fixpoint bind {A B} (p : Async A) (f : A -> Async B) : Async B :=
  match p with
  | Ret a => f a
  | Raise e => Raise e
  | Update g k => Update g (bind k f)
  | Await r k => Await r (fun o => bind (k o) f)
  | Perform e k => Perform e (bind k f)
  end.

Notation "x <- p ;; k" := (bind p (fun x => k))
  (at level 61, p at next level, right associativity).
Notation "p ;; k" := (bind p (fun _ => k))
  (at level 61, right associativity).

Definition set (f : State -> State) : Async unit := Update f (Ret tt).
Definition perform (e : effect) : Async unit := Perform e (Ret tt).

Definition lift {A} (r : result A) : Async A :=
  match r with
  | Ok a => Ret a
  | Throw e => Raise e
  end.

(** [await axios(...)]: a rejection is thrown at the [await]. *)
Definition axios (r : Request) : Async jsval :=
  Await r (fun o =>
    match o with
    | Resolved data => Ret data
    | Rejected e => Raise e
    end).

(** [try { body } catch (err) { handler }] *)
Fixpoint try_catch {A} (body : Async A) (handler : exn -> Async A) : Async A :=
  match body with
  | Ret a => Ret a
  | Raise e => handler e
  | Update g k => Update g (try_catch k handler)
  | Await r k => Await r (fun o => try_catch (k o) handler)
  | Perform e k => Perform e (try_catch k handler)
  end.

(** [try { body } finally { fin }] *)
Fixpoint finally {A} (body : Async A) (fin : Async unit) : Async A :=
  match body with
  | Ret a => fin ;; Ret a
  | Raise e => fin ;; Raise e
  | Update g k => Update g (finally k fin)
  | Await r k => Await r (fun o => finally (k o) fin)
  | Perform e k => Perform e (finally k fin)
  end.

(** The outcome of running a handler to completion. *)
Record Run (A : Type) : Type := mkRun {
  run_result : result A;
  run_state : State;
  run_requests : list Request;
  run_effects : list effect
}.

Arguments mkRun {A}.
Arguments run_result {A}.
Arguments run_state {A}.
Arguments run_requests {A}.
Arguments run_effects {A}.

(** [run p srv sent done st]: execute [p] from state [st] against [srv];
    [sent] are the requests made so far, [done] the effects performed. *)
Fixpoint run {A} (p : Async A) (srv : Server)
         (sent : list Request) (done : list effect) (st : State) : Run A :=
  match p with
  | Ret a => mkRun (Ok a) st sent done
  | Raise e => mkRun (Throw e) st sent done
  | Update f k => run k srv sent done (f st)
  | Await r k => run (k (srv sent r)) srv (sent ++ [r]) done st
  | Perform e k => run k srv sent (done ++ [e]) st
  end.

(** [within U R p]: every update of [p] satisfies [U] and every request
    of [p] satisfies [R], whatever the server answers. *)
Fixpoint within (U : (State -> State) -> Prop) (R : Request -> Prop)
         {A} (p : Async A) : Prop :=
  match p with
  | Ret _ => True
  | Raise _ => True
  | Update f k => U f /\ within U R k
  | Await q k => R q /\ forall o, within U R (k o)
  | Perform _ k => within U R k
  end.

(** ** The component *)

Section Dashboard.

(** [process.env.REACT_APP_API_URL], fixed at build time. *)
Variable REACT_APP_API_URL : option string.

(** [Date.parse] of the runtime: the time value of a date string in
    milliseconds, [None] for [NaN]. *)
Variable Date_parse : string -> option Z.

Definition API_URL : string :=
  match REACT_APP_API_URL with
  | Some u => if (u =? "")%string then "http://localhost:8000" else u
  | None => "http://localhost:8000"
  end.

(** [new Date(v).getTime()]; [None] is [NaN] (an invalid date). *)
Definition Date_getTime (v : jsval) : option Z :=
  match v with
  | Undefined => None
  | Val JNull => Some 0
  | Val (JBool b) => Some (if b then 1 else 0)
  | Val (JNum n) => if Z.abs n <=? 8640000000000000 then Some n else None
  | Val (JStr s) => Date_parse s
  | Val x => Date_parse (value_to_string x)
  end.

(** [!token] *)
Definition no_token (s : State) : bool :=
  match token s with
  | None => true
  | Some t => (t =? "")%string
  end.

(** [`Bearer ${token}`] *)
Definition bearer (s : State) : string :=
  "Bearer " ++ match token s with
               | None => "null"
               | Some t => t
               end.

Definition string_of_bool (b : bool) : string :=
  if b then "true" else "false".

(** The request of [fetchListings] (lines 54-62). *)
Definition listings_request (s : State) : Request :=
  mkRequest GET
    (API_URL ++ "/listings?include_seen="
             ++ string_of_bool (negb (showOnlyUnseen s)))
    None
    [("Authorization", bearer s);
     ("Content-Type", "application/json");
     ("Accept", "application/json")]
    true
    (Some 10000).

(** The callback of [response.data.filter] (lines 67-76). *)
Definition isValidListing (listing : value) : result bool :=
  Ok (jstype_eqb (typeof listing) TObject) &&&
  (v <-? get listing "id" ;; Ok (jstype_eqb (typeof v) TString)) &&&
  (v <-? get listing "title" ;; Ok (jstype_eqb (typeof v) TString)) &&&
  (v <-? get listing "price" ;; Ok (jstype_eqb (typeof v) TString)) &&&
  (v <-? get listing "location" ;; Ok (jstype_eqb (typeof v) TString)) &&&
  (v <-? get listing "link" ;; Ok (jstype_eqb (typeof v) TString)).

(** [(l) => !l.seen] *)
Definition notSeen (l : value) : result bool :=
  v <-? get l "seen" ;; Ok (negb (ToBoolean v)).

Definition length_of {A} (l : list A) : jsval :=
  JNum (Z.of_nat (List.length l)).

(** [err.response?.data?.detail] *)
Definition detail (e : AxiosError) : jsval :=
  get_opt (err_data e) "detail".

Definition status_is (e : AxiosError) (code : Z) : bool :=
  match err_status e with
  | Some c => c =? code
  | None => false
  end.

Definition code_is (e : AxiosError) (code : string) : bool :=
  match err_code e with
  | Some c => (c =? code)%string
  | None => false
  end.

(** The [catch] clause of [fetchListings] (lines 89-109). *)
Definition fetchListings_catch (err : exn) : Async unit :=
  match err with
  | IsAxiosError e =>
      if status_is e 401 then
        set (setError (Some "Session expired. Please login again."))
      else if code_is e "ERR_NETWORK" then
        set (setError
               (Some "Network error. Please check if the server is running."))
      else if status_is e 500 then
        set (setError
               (Some ("Server error: "
                        ++ ToString (or_else (detail e) (JStr "Unknown error")))))
      else
        set (setError
               (Some ("Failed to fetch listings: "
                        ++ ToString (or_else (detail e)
                                             (JStr (err_message e))))))
  | _ => set (setError (Some "Failed to fetch listings. Please try again."))
  end.

(** [fetchListings] (lines 42-113), created in the render [s]. *)
Definition fetchListings (s : State) : Async unit :=
  if no_token s then
    set (setError (Some "Authentication token is missing")) ;;
    set (setLoading false) ;;
    Ret tt
  else
    finally
      (try_catch
         (set (setLoading true) ;;
          set (setError None) ;;
          data <- axios (listings_request s) ;;
          match data with
          | Val (JArr items) =>
              validListings <- lift (filterM isValidListing items) ;;
              set (setListings validListings) ;;
              unseenListings <- lift (filterM notSeen validListings) ;;
              set (setStats (mkStats (length_of validListings)
                                     (length_of unseenListings))) ;;
              set (setRetryCount (fun _ => 0))
          | _ =>
              set (setError (Some "Invalid response format from server"))
          end)
         fetchListings_catch)
      (set (setLoading false)).

(** [handleRetry] (lines 115-118). *)
Definition handleRetry (s : State) : Async unit :=
  set (setRetryCount (fun prev => prev + 1)) ;;
  fetchListings s.

Definition scrape_request (s : State) : Request :=
  mkRequest POST (API_URL ++ "/scrape") (Some (JObj []))
            [("Authorization", bearer s)] false None.

Definition catch_with (what : string) (err : exn) : Async unit :=
  match err with
  | IsAxiosError e =>
      if status_is e 401 then
        set (setError (Some "Session expired. Please login again."))
      else
        set (setError
               (Some ("Failed to " ++ what ++ ": "
                        ++ ToString (or_else (detail e)
                                             (JStr (err_message e))))))
  | _ => set (setError (Some ("Failed to " ++ what ++ ". Please try again.")))
  end.

(** [scrapeListings] (lines 120-145). *)
Definition scrapeListings (s : State) : Async unit :=
  finally
    (try_catch
       (set (setScraping true) ;;
        data <- axios (scrape_request s) ;;
        total_listings <- lift (get data "total_listings") ;;
        unseen_listings <- lift (get data "unseen_listings") ;;
        set (setStats (mkStats total_listings unseen_listings)) ;;
        fetchListings s)
       (catch_with "scrape listings"))
    (set (setScraping false)).

(** An array literal sent as a JSON body: [undefined] serialises as
    [null]. *)
Definition json_array (l : list jsval) : value :=
  JArr (map (fun v => match v with Undefined => JNull | Val x => x end) l).

Definition markSeen_request (s : State) (listingIds : list jsval) : Request :=
  mkRequest POST (API_URL ++ "/listings/mark-seen")
            (Some (json_array listingIds))
            [("Authorization", bearer s)] false None.

(** [markAsSeen] (lines 147-165). *)
Definition markAsSeen (s : State) (listingIds : list jsval) : Async unit :=
  try_catch
    (_ <- axios (markSeen_request s listingIds) ;;
     fetchListings s)
    (catch_with "mark listings as seen").

Inductive format : Type := csv | excel.

Definition format_name (f : format) : string :=
  match f with csv => "csv" | excel => "excel" end.

Definition format_upper (f : format) : string :=
  match f with csv => "CSV" | excel => "EXCEL" end.

Definition export_request (s : State) (f : format) : Request :=
  mkRequest POST
    (API_URL ++ "/listings/export?format=" ++ format_name f
             ++ "&include_seen=" ++ string_of_bool (negb (showOnlyUnseen s)))
    (Some (JObj []))
    [("Authorization", bearer s)] false None.

(** [exportListings] (lines 167-185). *)
Definition exportListings (s : State) (f : format) : Async unit :=
  try_catch
    (_ <- axios (export_request s f) ;;
     perform (Alert ("Listings exported to " ++ format_upper f)))
    (catch_with "export listings").

(** [handleLogout] (lines 37-40). *)
Definition handleLogout : Async unit :=
  perform Logout ;;
  perform (Navigate "/login").

(** The search predicate of [filteredAndSortedListings] (lines 191-198). *)
Definition matchesSearch (query : string) (listing : value) : result bool :=
  let searchLower := toLowerCase query in
  (f <-? get listing "title" ;;
   t <-? call_toLowerCase f ;; Ok (includes t searchLower)) |||
  (f <-? get listing "location" ;;
   t <-? call_toLowerCase f ;; Ok (includes t searchLower)) |||
  (f <-? get listing "price" ;;
   t <-? call_toLowerCase f ;; Ok (includes t searchLower)).

(** [new Date(l.scraped_at).getTime()].  The comparator only meets
    elements the search predicate has read [.title] from, so the
    property read cannot throw there and [?.] reads the same value. *)
Definition scraped_time (l : value) : option Z :=
  Date_getTime (get_opt l "scraped_at").

(** The comparator of line 199.  The difference of two time values has
    the sign of the exact difference; a [NaN] result counts as [0]. *)
Definition byScrapedAtDesc (a b : value) : Z :=
  match scraped_time b, scraped_time a with
  | Some tb, Some ta => tb - ta
  | _, _ => 0
  end.

(** [filteredAndSortedListings] (lines 188-202). *)
Definition filteredAndSortedListings (s : State) : result (list value) :=
  filtered <-? filterM (matchesSearch (searchQuery s)) (listings s) ;;
  Ok (sort byScrapedAtDesc filtered).

(** *** What the user can do *)

Inductive event : Type :=
| Mount
| ClickScrape
| ClickExportCsv
| ClickLogout
| ChangeSearch (value : string)
| ChangeShowOnlyUnseen (checked : bool)
| ClickRetry
| ClickMarkAsSeen (listingIds : list jsval).

(** *** The rendered tree (lines 209-338) *)

Inductive Image : Type :=
| Img (src : jsval) (alt : jsval)
| NoImage (text : string).

Record Card : Type := mkCard {
  card_key : string;
  card_className : string;
  card_image : Image;
  card_href : jsval;
  card_title : jsval;
  card_price : jsval;
  card_location : jsval;
  card_date : option Z;
  card_button : option (string * event)
}.

Inductive Body : Type :=
| NoListings (message : string)
| Grid (cards : list Card).

Record Main : Type := mkMain {
  scrape_disabled : bool;
  scrape_label : string;
  shown_total : jsval;
  shown_unseen : jsval;
  search_value : string;
  unseen_checked : bool;
  error_banner : option string;
  body : Body
}.

Inductive View : Type :=
| LoadingView
| LoginPrompt (message : string)
| DashboardView (m : Main).

Fixpoint mapiM {A B} (f : Z -> A -> result B) (i : Z) (l : list A)
  : result (list B) :=
  match l with
  | [] => Ok []
  | x :: rest =>
      y <-? f i x ;;
      ys <-? mapiM f (i + 1) rest ;;
      Ok (y :: ys)
  end.

(** One [listing-card] (lines 290-333). *)
Definition renderCard (index : Z) (listing : value) : result Card :=
  id <-? get listing "id" ;;
  seen <-? get listing "seen" ;;
  image_url <-? get listing "image_url" ;;
  title <-? get listing "title" ;;
  link <-? get listing "link" ;;
  price <-? get listing "price" ;;
  location <-? get listing "location" ;;
  scraped_at <-? get listing "scraped_at" ;;
  Ok (mkCard
        (ToString id ++ "-" ++ string_of_Z index)
        ("listing-card " ++ (if ToBoolean seen then "" else "unseen"))
        (if ToBoolean image_url then Img image_url title
         else NoImage "No Image")
        link title price location
        (Date_getTime scraped_at)
        (if negb (ToBoolean seen)
         then Some ("Mark as Seen", ClickMarkAsSeen [id])
         else None)).

(** [{error && ...}] *)
Definition banner (e : option string) : option string :=
  match e with
  | Some msg => if (msg =? "")%string then None else Some msg
  | None => None
  end.

(** The component function: the hooks run first, then the early returns. *)
Definition render (s : State) : result View :=
  shown <-? filteredAndSortedListings s ;;
  if loading s then Ok LoadingView
  else if no_token s then Ok (LoginPrompt "Please log in to view listings")
  else
    b <-? (match shown with
           | [] => Ok (NoListings
                         (if negb (searchQuery s =? "")%string
                          then "No listings match your search"
                          else "No listings found"))
           | _ => cards <-? mapiM renderCard 0 shown ;; Ok (Grid cards)
           end) ;;
    Ok (DashboardView
          (mkMain (scraping s)
                  (if scraping s then "Scraping..." else "Scrape New Listings")
                  (total (stats s)) (unseen (stats s))
                  (searchQuery s) (showOnlyUnseen s)
                  (banner (error s))
                  b)).

(** *** Event handling *)

(** The handler bound to each control in the render [s]. *)
Definition handler (s : State) (ev : event) : Async unit :=
  match ev with
  | Mount => Ret tt
  | ClickScrape => scrapeListings s
  | ClickExportCsv => exportListings s csv
  | ClickLogout => handleLogout
  | ChangeSearch q => set (setSearchQuery q)
  | ChangeShowOnlyUnseen checked => set (setShowOnlyUnseen checked)
  | ClickRetry => handleRetry s
  | ClickMarkAsSeen ids => markAsSeen s ids
  end.

(** [useEffect(() => fetchListings(), [showOnlyUnseen])]: runs after the
    first render and after a render in which [showOnlyUnseen] changed. *)
Definition effect_runs (ev : event) (before after : State) : bool :=
  match ev with
  | Mount => true
  | _ => negb (Bool.eqb (showOnlyUnseen before) (showOnlyUnseen after))
  end.

(** One event, run to completion against [srv], from state [st] with
    [sent] already requested. *)
Definition dispatch (srv : Server) (sent : list Request) (st : State)
           (ev : event) : Run unit :=
  let r := run (handler st ev) srv sent [] st in
  if effect_runs ev st (run_state r) then
    run (fetchListings (run_state r)) srv
        (run_requests r) (run_effects r) (run_state r)
  else r.

(** A listing as the validation of [fetchListings] retains it. *)
Definition valid (listing : value) : Prop :=
  isValidListing listing = Ok true.

(** A listing whose [scraped_at] is a valid date. *)
Definition dated (listing : value) : Prop :=
  exists t, scraped_time listing = Some t.

(** [a] was scraped no earlier than [b]. *)
Definition newest_first (a b : value) : Prop :=
  match scraped_time a, scraped_time b with
  | Some ta, Some tb => tb <= ta
  | _, _ => False
  end.

(** The executions of [fetchListings] that report an error: no token, a
    rejected request (network error, timeout, status outside 2xx), a body
    that is not an array, an exception while validating the elements. *)
Inductive fetch_fails (s : State) (o : outcome) : Prop :=
| fails_no_token : no_token s = true -> fetch_fails s o
| fails_rejected (e : exn) :
    no_token s = false -> o = Rejected e -> fetch_fails s o
| fails_not_array (data : jsval) :
    no_token s = false -> o = Resolved data ->
    (forall items, data <> Val (JArr items)) -> fetch_fails s o
| fails_throws (items : list value) (e : exn) :
    no_token s = false -> o = Resolved (JArr items) ->
    filterM isValidListing items = Throw e -> fetch_fails s o.

(** The declared type of the field: [seen: boolean]. *)
Definition seen_declared (listing : value) : Prop :=
  exists b, get_opt listing "seen" = Val (JBool b).

(** [seen !== true] *)
Definition seen_not_true (listing : value) : bool :=
  match get_opt listing "seen" with
  | Val (JBool true) => false
  | _ => true
  end.

(** The property [k] of an object holds a string. *)
Definition string_field (props : list (string * value)) (k : string) : Prop :=
  exists s, lookup k props = Val (JStr s).

(** The operations of the API that the component calls. *)
Definition dashboard_request (q : Request) : Prop :=
  (req_method q = GET /\
   exists b, req_url q
             = API_URL ++ "/listings?include_seen=" ++ string_of_bool b) \/
  (req_method q = POST /\ req_url q = API_URL ++ "/scrape") \/
  (req_method q = POST /\ req_url q = API_URL ++ "/listings/mark-seen" /\
   exists ids, req_body q = Some (JArr ids)) \/
  (req_method q = POST /\
   exists b, req_url q
             = API_URL ++ "/listings/export?format=csv&include_seen="
                       ++ string_of_bool b).

(** An update that leaves only validated listings in the state. *)
Definition keeps_valid (f : State -> State) : Prop :=
  forall x, Forall valid (listings x) -> Forall valid (listings (f x)).

(** [typeof v === 'string'] *)
Definition is_string (v : jsval) : bool := jstype_eqb (typeof v) TString.

(** An object whose [id], [title], [price], [location] and [link] are
    strings. *)
Definition has_string_fields (l : value) : bool :=
  match l with
  | JObj props =>
      is_string (lookup "id" props) && is_string (lookup "title" props) &&
      is_string (lookup "price" props) && is_string (lookup "location" props) &&
      is_string (lookup "link" props)
  | _ => false
  end.

(** The search predicate as a plain test: a listing on which it throws
    is not a match. *)
Definition matches (query : string) (l : value) : bool :=
  match matchesSearch query l with
  | Ok b => b
  | Throw _ => false
  end.

(** A string of ASCII characters only, on which [toLowerCase] changes
    nothing but the letters [A]-[Z]. *)
Fixpoint ascii_only (s : string) : bool :=
  match s with
  | EmptyString => true
  | String c rest => (nat_of_ascii c <? 128)%nat && ascii_only rest
  end.

(** A listing whose searched fields hold ASCII strings. *)
Definition ascii_field (l : value) (k : string) : bool :=
  match get_opt l k with
  | Val (JStr text) => ascii_only text
  | _ => true
  end.

Definition ascii_listing (l : value) : Prop :=
  ascii_field l "title" = true /\
  ascii_field l "location" = true /\
  ascii_field l "price" = true.

(** A string without the character [-]. *)
Fixpoint dash_free (s : string) : bool :=
  match s with
  | EmptyString => true
  | String c rest => negb (Ascii.eqb c "-") && dash_free rest
  end.

(** The request carries the bearer token of the render [s]. *)
Definition authorized (s : State) (q : Request) : Prop :=
  In ("Authorization", bearer s) (req_headers q).


(** The states the component goes through: the first render, then one
    event after another, each against any server. *)
Inductive reachable (tok : option string) : State -> Prop :=
| reach_initial : reachable tok (initial tok)
| reach_dispatch (srv : Server) (sent : list Request) (st : State)
                 (ev : event) :
    reachable tok st ->
    reachable tok (run_state (dispatch srv sent st ev)).

(** *** Sample data *)

Definition listing_bike : value :=
  JObj [("id", JStr "olx-1001");
        ("title", JStr "Mountain Bike");
        ("price", JStr "1 200 zl");
        ("location", JStr "Krakow");
        ("date", JStr "Dzisiaj 10:00");
        ("link", JStr "https://www.olx.pl/d/oferta/bike-1001");
        ("image_url", JNull);
        ("scraped_at", JStr "2024-05-01T10:00:00Z");
        ("is_new", JBool true);
        ("seen", JBool false)].

Definition listing_sofa : value :=
  JObj [("id", JStr "olx-1002");
        ("title", JStr "Sofa");
        ("price", JStr "300 zl");
        ("location", JStr "Gdansk");
        ("date", JStr "Wczoraj 18:30");
        ("link", JStr "https://www.olx.pl/d/oferta/sofa-1002");
        ("image_url", JStr "https://img.olx.pl/sofa-1002.jpg");
        ("scraped_at", JStr "2024-05-02T10:00:00Z");
        ("is_new", JBool false);
        ("seen", JBool true)].

Definition listing_no_link : value :=
  JObj [("id", JStr "olx-1003");
        ("title", JStr "Lamp");
        ("price", JStr "50 zl");
        ("location", JStr "Lodz");
        ("date", JStr "Dzisiaj 09:15");
        ("link", JStr "");
        ("image_url", JNull);
        ("scraped_at", JStr "2024-05-01T10:00:00Z");
        ("is_new", JBool true);
        ("seen", JBool false)].

(** A date parser that knows the two timestamps of the samples. *)
Definition sample_parse (s : string) : option Z :=
  if (s =? "2024-05-01T10:00:00Z")%string then Some 1714557600000
  else if (s =? "2024-05-02T10:00:00Z")%string then Some 1714644000000
  else None.

(** A logged-in dashboard after its first load, with nothing loaded. *)
Definition logged_in : State := setLoading false (initial (Some "secret")).

Definition loaded : State :=
  setStats (mkStats (JNum 2) (JNum 1))
           (setListings [listing_bike; listing_sofa] logged_in).

Definition unseen_only : State := setShowOnlyUnseen true loaded.


(** A server whose store holds the bike (unseen) and the sofa (seen). *)
Definition store_server : Server := fun _ q =>
  match req_method q with
  | POST => Resolved (JObj [("total_listings", JNum 2);
                            ("unseen_listings", JNum 1)])
  | GET =>
      if includes (req_url q) "include_seen=false"
      then Resolved (JArr [listing_bike])
      else Resolved (JArr [listing_bike; listing_sofa])
  end.



Definition down_server : Server := fun _ _ =>
  Rejected (IsAxiosError
              (mkAxiosError None Undefined (Some "ERR_NETWORK")
                            "Network Error")).

(** A dashboard whose user is not logged in. *)
Definition logged_out : State := setLoading false (initial None).

(** The loaded dashboard with a third listing, scraped together with the
    bike. *)
Definition loaded_three : State :=
  setListings [listing_bike; listing_sofa; listing_no_link] loaded.

(** A rejection with status 401, as an expired token gives. *)
Definition unauthorized : AxiosError :=
  mkAxiosError (Some 401) (JObj [("detail", JStr "Could not validate")])
               (Some "ERR_BAD_REQUEST")
               "Request failed with status code 401".

Definition expired_server : Server := fun _ _ =>
  Rejected (IsAxiosError unauthorized).

(** A server whose listings answer holds a [null]. *)
Definition null_server : Server := fun _ _ =>
  Resolved (JArr [listing_bike; JNull; listing_sofa]).



(** A server that scrapes but cannot list. *)
Definition flaky_server : Server := fun _ q =>
  match req_method q with
  | POST => Resolved (JObj [("total_listings", JNum 2);
                            ("unseen_listings", JNum 1)])
  | GET => Rejected (IsAxiosError
                       (mkAxiosError None Undefined (Some "ERR_NETWORK")
                                     "Network Error"))
  end.

(** ** Basic facts about the runtime operations *)

Example includes_inside : includes "mountain bike" "bike" = true.
Proof. reflexivity. Qed.

Example includes_absent : includes "sofa" "bike" = false.
Proof. reflexivity. Qed.

Example toLowerCase_mixed : toLowerCase "Krakow 12-B" = "krakow 12-b".
Proof. reflexivity. Qed.

Example ToString_array :
  ToString (JArr [JNum 1; JNull; JStr "a"; JNum (-20)]) = "1,,a,-20".
Proof. reflexivity. Qed.

Example sort_is_stable :
  sort (fun a b => snd b - snd a) [("a", 1); ("b", 3); ("c", 1); ("d", 3)]
  = [("b", 3); ("d", 3); ("a", 1); ("c", 1)].
Proof. reflexivity. Qed.

Example null_element_throws :
  filterM isValidListing [listing_bike; JNull] = Throw TypeError.
Proof. reflexivity. Qed.

Example array_element_dropped :
  filterM isValidListing [JArr []; listing_bike; JStr "x"] = Ok [listing_bike].
Proof. reflexivity. Qed.


Lemma typeof_string (v : jsval) :
  jstype_eqb (typeof v) TString = true -> exists s, v = Val (JStr s).
Proof.
  destruct v as [|[]]; cbn; try discriminate. eauto.
Qed.

Lemma get_object (props : list (string * value)) (k : string) :
  get (JObj props) k = Ok (lookup k props).
Proof. reflexivity. Qed.

Lemma get_ok_get_opt (v : jsval) (k : string) (x : jsval) :
  get v k = Ok x -> get_opt v k = x.
Proof.
  destruct v as [|[]]; cbn; congruence.
Qed.

Lemma includes_empty (s : string) : includes s "" = true.
Proof. destruct s; reflexivity. Qed.

Lemma filterM_Ok {A} (p : A -> result bool) (q : A -> bool) (l : list A) :
  Forall (fun x => p x = Ok (q x)) l -> filterM p l = Ok (filter q l).
Proof.
  induction 1 as [|x l Hx _ IH]; cbn; [reflexivity|].
  rewrite Hx, IH. cbn. reflexivity.
Qed.

Lemma filterM_inv {A} (p : A -> result bool) (l out : list A) :
  filterM p l = Ok out -> Forall (fun x => p x = Ok true) out.
Proof.
  revert out. induction l as [|x l IH]; cbn; intros out H.
  - injection H as <-. constructor.
  - destruct (p x) as [keep|] eqn:Hp; cbn in H; [|discriminate].
    destruct (filterM p l) as [rest|]; cbn in H; [|discriminate].
    injection H as <-. destruct keep; auto.
Qed.

(** ** What validation guarantees *)

Lemma valid_object (l : value) :
  valid l -> exists props, l = JObj props.
Proof.
  unfold valid, isValidListing. destruct l; cbn; try discriminate. eauto.
Qed.

Lemma rand_true (a b : result bool) :
  a &&& b = Ok true -> a = Ok true /\ b = Ok true.
Proof.
  unfold rand. destruct a as [[]|]; cbn; intros; try discriminate; auto.
Qed.

Lemma valid_fields (props : list (string * value)) :
  valid (JObj props) ->
  string_field props "id" /\ string_field props "title" /\
  string_field props "price" /\ string_field props "location" /\
  string_field props "link".
Proof.
  unfold valid, isValidListing. intros H.
  repeat (apply rand_true in H; destruct H as [H ?]).
  rewrite !get_object in *. cbn [rbind] in *.
  repeat split;
    match goal with
    | E : Ok (jstype_eqb (typeof (lookup ?k props)) TString) = Ok true
      |- string_field props ?k =>
        injection E as E; apply typeof_string in E; exact E
    end.
Qed.

Lemma valid_notSeen (l : value) :
  valid l -> notSeen l = Ok (negb (ToBoolean (get_opt l "seen"))).
Proof.
  intros H. destruct (valid_object l H) as [props ->]. reflexivity.
Qed.

Lemma valid_matchesSearch_empty (l : value) :
  valid l -> matchesSearch "" l = Ok true.
Proof.
  intros H. destruct (valid_object l H) as [props ->].
  destruct (valid_fields props H) as (_ & [t Ht] & _).
  unfold matchesSearch, ror. rewrite get_object, Ht. cbn.
  rewrite includes_empty. reflexivity.
Qed.

Lemma valid_matchesSearch (q : string) (l : value) :
  valid l -> exists b, matchesSearch q l = Ok b.
Proof.
  intros H. destruct (valid_object l H) as [props ->].
  destruct (valid_fields props H) as (_ & [t Ht] & [p Hp] & [c Hc] & _).
  unfold matchesSearch, ror. rewrite !get_object, Ht, Hp, Hc. cbn.
  destruct (includes (toLowerCase t) _); cbn; eauto.
  destruct (includes (toLowerCase c) _); cbn; eauto.
Qed.

(** *** Running composed handlers *)

Lemma run_bind {A B} (p : Async A) (f : A -> Async B) srv sent done st :
  run (bind p f) srv sent done st =
  let r := run p srv sent done st in
  match run_result r with
  | Ok a => run (f a) srv (run_requests r) (run_effects r) (run_state r)
  | Throw e => mkRun (Throw e) (run_state r) (run_requests r) (run_effects r)
  end.
Proof.
  revert sent done st.
  induction p as [a|e|g k IH|q k IH|e k IH]; intros; cbn; auto.
Qed.

Lemma run_try_catch {A} (p : Async A) (h : exn -> Async A) srv sent done st :
  run (try_catch p h) srv sent done st =
  let r := run p srv sent done st in
  match run_result r with
  | Ok _ => r
  | Throw e => run (h e) srv (run_requests r) (run_effects r) (run_state r)
  end.
Proof.
  revert sent done st.
  induction p as [a|e|g k IH|q k IH|e k IH]; intros; cbn; auto.
Qed.

Lemma run_finally {A} (p : Async A) (fin : Async unit) srv sent done st :
  run (finally p fin) srv sent done st =
  let r := run p srv sent done st in
  let r' := run fin srv (run_requests r) (run_effects r) (run_state r) in
  match run_result r' with
  | Ok _ =>
      mkRun (run_result r) (run_state r') (run_requests r') (run_effects r')
  | Throw e =>
      mkRun (Throw e) (run_state r') (run_requests r') (run_effects r')
  end.
Proof.
  revert sent done st.
  induction p as [a|e|g k IH|q k IH|e k IH]; intros; cbn; auto.
  - rewrite run_bind. cbn. destruct (run_result _); reflexivity.
  - rewrite run_bind. cbn. destruct (run_result _); reflexivity.
Qed.

(** *** Properties of every update and every request of a handler *)

Section Trees.

Variable U : (State -> State) -> Prop.
Variable R : Request -> Prop.

Local Abbreviation within := (within U R).

Lemma within_bind {A B} (p : Async A) (f : A -> Async B) :
  within p -> (forall a, within (f a)) -> within (bind p f).
Proof.
  intros Hp Hf.
  induction p as [a|e|g k IH|q k IH|e k IH]; cbn in *; intuition.
Qed.

Lemma within_try_catch {A} (p : Async A) (h : exn -> Async A) :
  within p -> (forall e, within (h e)) -> within (try_catch p h).
Proof.
  intros Hp Hh.
  induction p as [a|e|g k IH|q k IH|e k IH]; cbn in *; intuition.
Qed.

Lemma within_finally {A} (p : Async A) (fin : Async unit) :
  within p -> within fin -> within (finally p fin).
Proof.
  intros Hp Hf.
  induction p as [a|e|g k IH|q k IH|e k IH]; cbn in *; intuition;
    apply within_bind; cbn; auto.
Qed.

Lemma within_lift {A} (r : result A) : within (lift r).
Proof. destruct r; exact I. Qed.

Lemma within_set (f : State -> State) : U f -> within (set f).
Proof. cbn. auto. Qed.

Lemma within_axios (q : Request) : R q -> within (axios q).
Proof. cbn. intros H. split; [exact H|]. intros []; exact I. Qed.

Lemma run_within_requests {A} (p : Async A) srv sent done st :
  within p -> Forall R sent ->
  Forall R (run_requests (run p srv sent done st)).
Proof.
  revert sent done st.
  induction p as [a|e|g k IH|q k IH|e k IH]; cbn; intros sent done st Hp Hs.
  - exact Hs.
  - exact Hs.
  - apply IH; tauto.
  - apply IH; [apply Hp|]. apply Forall_app. split; [exact Hs|].
    constructor; [apply Hp|constructor].
  - apply IH; tauto.
Qed.

Lemma run_within_state {A} (p : Async A) (Inv : State -> Prop)
      srv sent done st :
  (forall f x, U f -> Inv x -> Inv (f x)) ->
  within p -> Inv st -> Inv (run_state (run p srv sent done st)).
Proof.
  intros HU. revert sent done st.
  induction p as [a|e|g k IH|q k IH|e k IH]; cbn; intros sent done st Hp Hs.
  - exact Hs.
  - exact Hs.
  - apply IH; [tauto|]. apply HU; tauto.
  - apply IH; [apply Hp|exact Hs].
  - apply IH; tauto.
Qed.

End Trees.


(** ** Running the handlers *)

Lemma fetchListings_catch_sets (err : exn) :
  exists msg, msg <> "" /\ fetchListings_catch err = set (setError (Some msg)).
Proof.
  destruct err as [e|]; cbn.
  - destruct (status_is e 401); [eexists; split; [|reflexivity]; discriminate|].
    destruct (code_is e "ERR_NETWORK");
      [eexists; split; [|reflexivity]; discriminate|].
    destruct (status_is e 500);
      eexists; (split; [|reflexivity]); cbn; discriminate.
  - eexists; split; [|reflexivity]; discriminate.
Qed.

Lemma catch_with_sets (what : string) (err : exn) :
  exists msg, msg <> "" /\ catch_with what err = set (setError (Some msg)).
Proof.
  destruct err as [e|]; cbn.
  - destruct (status_is e 401);
      eexists; (split; [|reflexivity]); cbn; discriminate.
  - eexists; split; [|reflexivity]; discriminate.
Qed.

Section RunFetch.

Variables (s st : State) (srv : Server).
Variables (sent : list Request) (done : list effect).

Let o : outcome := srv sent (listings_request s).
Let r : Run unit := run (fetchListings s) srv sent done st.

Lemma run_fetch_no_token :
  no_token s = true ->
  r = mkRun (Ok tt)
        (setLoading false
           (setError (Some "Authentication token is missing") st))
        sent done.
Proof.
  intros H. unfold r, fetchListings. rewrite H. reflexivity.
Qed.

Lemma run_fetch_rejected (e : exn) :
  no_token s = false -> o = Rejected e ->
  exists msg, msg <> "" /\
    r = mkRun (Ok tt)
          (setLoading false
             (setError (Some msg) (setError None (setLoading true st))))
          (sent ++ [listings_request s]) done.
Proof.
  intros H Ho. destruct (fetchListings_catch_sets e) as (msg & Hmsg & Hc).
  exists msg. split; [exact Hmsg|].
  unfold r, fetchListings. rewrite H. cbn. fold o. rewrite Ho. cbn.
  rewrite Hc. reflexivity.
Qed.

Lemma run_fetch_not_array (data : jsval) :
  no_token s = false -> o = Resolved data ->
  (forall items, data <> Val (JArr items)) ->
  r = mkRun (Ok tt)
        (setLoading false
           (setError (Some "Invalid response format from server")
                     (setError None (setLoading true st))))
        (sent ++ [listings_request s]) done.
Proof.
  intros H Ho Hd. unfold r, fetchListings. rewrite H. cbn. fold o.
  rewrite Ho. destruct data as [|[]]; try reflexivity.
  exfalso. eapply Hd. reflexivity.
Qed.

Lemma run_fetch_throws (items : list value) (e : exn) :
  no_token s = false -> o = Resolved (JArr items) ->
  filterM isValidListing items = Throw e ->
  exists msg, msg <> "" /\
    r = mkRun (Ok tt)
          (setLoading false
             (setError (Some msg) (setError None (setLoading true st))))
          (sent ++ [listings_request s]) done.
Proof.
  intros H Ho Hf. destruct (fetchListings_catch_sets e) as (msg & Hmsg & Hc).
  exists msg. split; [exact Hmsg|].
  unfold r, fetchListings. rewrite H. cbn. fold o. rewrite Ho. cbn.
  rewrite Hf. cbn. rewrite Hc. reflexivity.
Qed.

Lemma run_fetch_ok (items validListings : list value) :
  no_token s = false -> o = Resolved (JArr items) ->
  filterM isValidListing items = Ok validListings ->
  r = mkRun (Ok tt)
        (setLoading false
           (setRetryCount (fun _ => 0)
              (setStats
                 (mkStats
                    (length_of validListings)
                    (length_of
                       (filter (fun l : value => negb (ToBoolean (get_opt l "seen")))
                               validListings)))
                 (setListings validListings
                    (setError None (setLoading true st))))))
        (sent ++ [listings_request s]) done.
Proof.
  intros H Ho Hf. unfold r, fetchListings. rewrite H. cbn. fold o.
  rewrite Ho. cbn. rewrite Hf. cbn.
  rewrite (filterM_Ok notSeen
             (fun l : value => negb (ToBoolean (get_opt l "seen")))).
  - reflexivity.
  - eapply Forall_impl; [|exact (filterM_inv _ _ _ Hf)].
    intros l Hl. apply valid_notSeen. exact Hl.
Qed.

End RunFetch.

(** ** Every request and every update of the component *)

Ltac keeps := intros ? ?; cbn; auto.

Local Abbreviation ok := (within keeps_valid dashboard_request).

Lemma listings_request_ok (s : State) : dashboard_request (listings_request s).
Proof. left. split; [reflexivity|]. eexists. reflexivity. Qed.

Lemma fetchListings_catch_ok (e : exn) : ok (fetchListings_catch e).
Proof.
  destruct (fetchListings_catch_sets e) as (msg & _ & ->).
  apply within_set. keeps.
Qed.

Lemma catch_with_ok (what : string) (e : exn) : ok (catch_with what e).
Proof.
  destruct (catch_with_sets what e) as (msg & _ & ->).
  apply within_set. keeps.
Qed.

Lemma fetchListings_ok (s : State) : ok (fetchListings s).
Proof.
  unfold fetchListings. destruct (no_token s).
  - cbn. repeat split; keeps.
  - apply within_finally; [|apply within_set; keeps].
    apply within_try_catch; [|apply fetchListings_catch_ok].
    cbn. split; [keeps|]. split; [keeps|].
    split; [apply listings_request_ok|].
    intros [data|e]; [|exact I].
    destruct data as [|[]]; try (cbn; split; [keeps|exact I]).
    cbn [bind].
    destruct (filterM isValidListing items) as [vs|e] eqn:Hf; [|exact I].
    cbn. split.
    + intros x _. cbn. exact (filterM_inv _ _ _ Hf).
    + destruct (filterM notSeen vs); cbn; [|exact I].
      split; [keeps|]. split; [keeps|exact I].
Qed.

Lemma handler_ok (s : State) (ev : event) : ok (handler s ev).
Proof.
  destruct ev; cbn [handler].
  - exact I.
  - apply within_finally; [|apply within_set; keeps].
    apply within_try_catch; [|apply catch_with_ok].
    cbn. split; [keeps|]. split; [right; left; split; reflexivity|].
    intros [data|e]; [|exact I]. cbn [bind].
    destruct (get data "total_listings"); [|exact I].
    destruct (get data "unseen_listings"); [|exact I].
    cbn. split; [keeps|]. apply fetchListings_ok.
  - apply within_try_catch; [|apply catch_with_ok].
    cbn. split.
    + right; right; right. split; [reflexivity|]. eexists. reflexivity.
    + intros [data|e]; exact I.
  - exact I.
  - apply within_set. keeps.
  - apply within_set. keeps.
  - cbn. split; [keeps|]. apply fetchListings_ok.
  - apply within_try_catch; [|apply catch_with_ok].
    cbn. split.
    + right; right; left. split; [reflexivity|]. split; [reflexivity|].
      eexists. reflexivity.
    + intros [data|e]; [|exact I]. apply fetchListings_ok.
Qed.

(** The listings in the state have always passed the validation. *)
Lemma dispatch_keeps_valid (srv : Server) (sent : list Request)
      (st : State) (ev : event) :
  Forall valid (listings st) ->
  Forall valid (listings (run_state (dispatch srv sent st ev))).
Proof.
  intros H. unfold dispatch.
  assert (H1 : Forall valid
                 (listings (run_state (run (handler st ev) srv sent [] st)))).
  { apply (run_within_state keeps_valid dashboard_request (handler st ev)
             (fun x => Forall valid (listings x)));
      [intros f x Hf; apply Hf|apply handler_ok|exact H]. }
  destruct (effect_runs _ _ _); [|exact H1].
  apply (run_within_state keeps_valid dashboard_request (fetchListings _)
           (fun x => Forall valid (listings x)));
    [intros f x Hf; apply Hf|apply fetchListings_ok|exact H1].
Qed.

Lemma reachable_valid (tok : option string) (st : State) :
  reachable tok st -> Forall valid (listings st).
Proof.
  induction 1 as [|srv sent st ev _ IH].
  - constructor.
  - apply dispatch_keeps_valid. exact IH.
Qed.

Lemma dispatch_requests (srv : Server) (sent : list Request)
      (st : State) (ev : event) :
  Forall dashboard_request sent ->
  Forall dashboard_request (run_requests (dispatch srv sent st ev)).
Proof.
  intros H. unfold dispatch.
  assert (H1 : Forall dashboard_request
                 (run_requests (run (handler st ev) srv sent [] st))).
  { apply (run_within_requests keeps_valid); [apply handler_ok|exact H]. }
  destruct (effect_runs _ _ _); [|exact H1].
  apply (run_within_requests keeps_valid); [apply fetchListings_ok|exact H1].
Qed.

(** ** Sorting *)

Lemma sort_insert_perm {A} (cmp : A -> A -> Z) (x : A) (l : list A) :
  Permutation (x :: l) (sort_insert cmp x l).
Proof.
  induction l as [|y l IH]; cbn; [reflexivity|].
  destruct (cmp x y <=? 0); [reflexivity|].
  rewrite perm_swap. constructor. exact IH.
Qed.

Lemma sort_perm {A} (cmp : A -> A -> Z) (l : list A) :
  Permutation l (sort cmp l).
Proof.
  induction l as [|x l IH]; cbn; [reflexivity|].
  rewrite <- sort_insert_perm. constructor. exact IH.
Qed.

Lemma newest_first_trans (a b c : value) :
  newest_first a b -> newest_first b c -> newest_first a c.
Proof.
  unfold newest_first.
  destruct (scraped_time a), (scraped_time b), (scraped_time c);
    try tauto; lia.
Qed.

Lemma sort_insert_sorted (x : value) (l : list value) :
  dated x -> Forall dated l ->
  StronglySorted newest_first l ->
  StronglySorted newest_first (sort_insert byScrapedAtDesc x l).
Proof.
  intros [tx Hx] Hd Hs. induction Hs as [|y l Hs IH Hy]; cbn.
  - constructor; constructor.
  - inversion Hd as [|? ? [ty Hty] Hd']; subst.
    unfold byScrapedAtDesc at 1. rewrite Hx, Hty.
    destruct (ty - tx <=? 0) eqn:Hc.
    + apply Z.leb_le in Hc.
      assert (Hxy : newest_first x y).
      { unfold newest_first. rewrite Hx, Hty. lia. }
      constructor; [constructor; assumption|].
      constructor; [exact Hxy|].
      eapply Forall_impl; [|exact Hy].
      intros z Hz. exact (newest_first_trans _ _ _ Hxy Hz).
    + apply Z.leb_gt in Hc.
      constructor; [apply IH; exact Hd'|].
      eapply Permutation_Forall; [apply sort_insert_perm|].
      constructor; [|exact Hy].
      unfold newest_first. rewrite Hx, Hty. lia.
Qed.

Lemma sort_sorted (l : list value) :
  Forall dated l -> StronglySorted newest_first (sort byScrapedAtDesc l).
Proof.
  induction 1 as [|x l Hx Hl IH]; cbn; [constructor|].
  apply sort_insert_sorted; [exact Hx| |exact IH].
  eapply Permutation_Forall; [apply sort_perm|exact Hl].
Qed.


(** On validated listings the search predicate never throws. *)
Lemma filtered_valid (q : string) (l : list value) :
  Forall valid l ->
  exists keep, filterM (matchesSearch q) l = Ok (filter keep l).
Proof.
  intros H.
  exists (fun x => match matchesSearch q x with Ok b => b | Throw _ => false end).
  apply filterM_Ok. eapply Forall_impl; [|exact H].
  intros x Hx. destruct (valid_matchesSearch q x Hx) as [b ->]. reflexivity.
Qed.

(** ** Rendering validated listings *)

Lemma renderCard_valid (index : Z) (l : value) :
  valid l ->
  renderCard index l =
  Ok (mkCard
        (ToString (get_opt l "id") ++ "-" ++ string_of_Z index)
        ("listing-card "
           ++ (if ToBoolean (get_opt l "seen") then "" else "unseen"))
        (if ToBoolean (get_opt l "image_url")
         then Img (get_opt l "image_url") (get_opt l "title")
         else NoImage "No Image")
        (get_opt l "link") (get_opt l "title") (get_opt l "price")
        (get_opt l "location")
        (Date_getTime (get_opt l "scraped_at"))
        (if negb (ToBoolean (get_opt l "seen"))
         then Some ("Mark as Seen", ClickMarkAsSeen [get_opt l "id"])
         else None)).
Proof.
  intros H. destruct (valid_object l H) as [props ->]. reflexivity.
Qed.

Lemma mapiM_renderCard (i : Z) (shown : list value) :
  Forall valid shown ->
  exists cards,
    mapiM renderCard i shown = Ok cards /\
    Forall2 (fun l c => valid l /\ exists index, renderCard index l = Ok c)
            shown cards.
Proof.
  intros H. revert i. induction H as [|l shown Hl _ IH]; intros i; cbn.
  - exists []. split; [reflexivity|constructor].
  - destruct (IH (i + 1)) as (cards & -> & Hc).
    rewrite (renderCard_valid i l Hl). cbn.
    eexists. split; [reflexivity|].
    constructor; [|exact Hc].
    split; [exact Hl|]. exists i. apply renderCard_valid. exact Hl.
Qed.

(** What [filteredAndSortedListings] returns on validated listings. *)
Lemma shown_valid (s : State) :
  Forall valid (listings s) ->
  exists keep,
    filteredAndSortedListings s
    = Ok (sort byScrapedAtDesc (filter keep (listings s))).
Proof.
  intros H. destruct (filtered_valid (searchQuery s) _ H) as [keep Hk].
  exists keep. unfold filteredAndSortedListings. rewrite Hk. reflexivity.
Qed.

Lemma Forall_shown (P : value -> Prop) (keep : value -> bool)
      (l : list value) :
  Forall P l -> Forall P (sort byScrapedAtDesc (filter keep l)).
Proof.
  intros H. eapply Permutation_Forall; [apply sort_perm|].
  eapply incl_Forall; [apply incl_filter|exact H].
Qed.

(** ** Failing executions of [fetchListings] *)

Lemma run_fetch_fails s st srv sent done :
  fetch_fails s (srv sent (listings_request s)) ->
  exists msg, msg <> "" /\
    run_state (run (fetchListings s) srv sent done st)
    = setLoading false (setError (Some msg) st).
Proof.
  intros [H|e H Ho|data H Ho Hd|items e H Ho Hf].
  - rewrite (run_fetch_no_token s st srv sent done H).
    eexists. split; [|reflexivity]. discriminate.
  - destruct (run_fetch_rejected s st srv sent done e H Ho)
      as (msg & Hm & ->).
    exists msg. split; [exact Hm|reflexivity].
  - rewrite (run_fetch_not_array s st srv sent done data H Ho Hd).
    eexists. split; [|reflexivity]. discriminate.
  - destruct (run_fetch_throws s st srv sent done items e H Ho Hf)
      as (msg & Hm & ->).
    exists msg. split; [exact Hm|reflexivity].
Qed.

Lemma run_fetch_requests s st srv sent done :
  no_token s = false ->
  run_requests (run (fetchListings s) srv sent done st)
  = (sent ++ [listings_request s])%list.
Proof.
  intros H. destruct (srv sent (listings_request s)) as [data|e] eqn:Ho.
  - destruct data as [|v].
    + rewrite (run_fetch_not_array s st srv sent done _ H Ho);
        [reflexivity|discriminate].
    + destruct v;
        try (rewrite (run_fetch_not_array s st srv sent done _ H Ho);
             [reflexivity|discriminate]).
      destruct (filterM isValidListing items) as [vs|e] eqn:Hf.
      * rewrite (run_fetch_ok s st srv sent done items vs H Ho Hf).
        reflexivity.
      * destruct (run_fetch_throws s st srv sent done items e H Ho Hf)
          as (msg & _ & ->). reflexivity.
  - destruct (run_fetch_rejected s st srv sent done e H Ho)
      as (msg & _ & ->). reflexivity.
Qed.

Lemma filter_unseen_declared (l : list value) :
  Forall seen_declared l ->
  filter (fun x : value => negb (ToBoolean (get_opt x "seen"))) l
  = filter seen_not_true l.
Proof.
  induction 1 as [|x l [b Hb] _ IH]; [reflexivity|].
  cbn -[get_opt]. unfold seen_not_true at 1. rewrite Hb, IH.
  destruct b; reflexivity.
Qed.

(** [fetchListings] handles its own exceptions and sends at most the one
    GET request. *)
Lemma run_fetch_completes s st srv sent done :
  exists st',
    run (fetchListings s) srv sent done st
    = mkRun (Ok tt) st'
            (sent ++ if no_token s then [] else [listings_request s]) done.
Proof.
  destruct (no_token s) eqn:H.
  - rewrite (run_fetch_no_token s st srv sent done H), app_nil_r. eauto.
  - destruct (srv sent (listings_request s)) as [data|e] eqn:Ho.
    + destruct data as [|v].
      * rewrite (run_fetch_not_array s st srv sent done _ H Ho);
          [eauto|discriminate].
      * destruct v;
          try (rewrite (run_fetch_not_array s st srv sent done _ H Ho);
               [eauto|discriminate]).
        destruct (filterM isValidListing items) as [vs|e] eqn:Hf.
        -- rewrite (run_fetch_ok s st srv sent done items vs H Ho Hf). eauto.
        -- destruct (run_fetch_throws s st srv sent done items e H Ho Hf)
             as (msg & _ & ->). eauto.
    + destruct (run_fetch_rejected s st srv sent done e H Ho)
        as (msg & _ & ->). eauto.
Qed.

Lemma valid_matches (q : string) (l : value) :
  valid l -> matchesSearch q l = Ok (matches q l).
Proof.
  intros H. unfold matches.
  destruct (valid_matchesSearch q l H) as [b ->]. reflexivity.
Qed.

Lemma shown_matches (s : State) :
  Forall valid (listings s) ->
  filteredAndSortedListings s
  = Ok (sort byScrapedAtDesc (filter (matches (searchQuery s)) (listings s))).
Proof.
  intros H. unfold filteredAndSortedListings.
  rewrite (filterM_Ok _ (matches (searchQuery s))); [reflexivity|].
  eapply Forall_impl; [|exact H]. intros l Hl. apply valid_matches, Hl.
Qed.

Lemma filter_keeps_all {A} (f : A -> bool) (l : list A) :
  Forall (fun x => f x = true) l -> filter f l = l.
Proof.
  induction 1 as [|x l Hx _ IH]; cbn; [reflexivity|].
  rewrite Hx, IH. reflexivity.
Qed.

(** ** Properties of the component *)

(** C2: after a successful fetch the stats are computed from the retained
    records: [stats.total] is the number of listings the validation
    retained and [stats.unseen] the number of retained listings with
    [!l.seen], which for a boolean [seen] are those whose [seen] is not
    [true]. *)
Theorem stats_derived_from_retained
        s st srv sent done (items validListings : list value) :
  no_token s = false ->
  srv sent (listings_request s) = Resolved (JArr items) ->
  filterM isValidListing items = Ok validListings ->
  let st' := run_state (run (fetchListings s) srv sent done st) in
  error st' = None /\
  listings st' = validListings /\
  total (stats st') = length_of (listings st') /\
  unseen (stats st')
  = length_of (filter (fun l : value => negb (ToBoolean (get_opt l "seen")))
                      (listings st')) /\
  (Forall seen_declared validListings ->
   unseen (stats st') = length_of (filter seen_not_true (listings st'))).
Proof.
  intros H Ho Hf st'. subst st'.
  rewrite (run_fetch_ok s st srv sent done items validListings H Ho Hf).
  repeat split; try reflexivity.
  intros Hd. cbn -[get_opt ToBoolean filter].
  rewrite (filter_unseen_declared _ Hd). reflexivity.
Qed.


(** C4: when every listing in the state has a [scraped_at] that is a valid
    date, [filteredAndSortedListings] is ordered most recent first: each
    element was scraped no earlier than every element after it.  The
    sequence is made of listings of the state: all of them when the search
    query is empty, and in general those that match the query (stated where
    the query and the searched fields are ASCII, on which lower-casing is
    the folding of the letters [A]-[Z]). *)
Theorem sorted_most_recent_first (s : State) :
  Forall valid (listings s) ->
  Forall dated (listings s) ->
  exists shown,
    filteredAndSortedListings s = Ok shown /\
    StronglySorted newest_first shown /\
    (forall l, In l shown -> In l (listings s)) /\
    (searchQuery s = "" -> Permutation (listings s) shown) /\
    (ascii_only (searchQuery s) = true ->
     Forall ascii_listing (listings s) ->
     Permutation (filter (matches (searchQuery s)) (listings s)) shown).
Proof.
  intros Hv Hd. eexists. split; [apply shown_matches, Hv|].
  split; [|split; [|split]].
  - apply sort_sorted. eapply incl_Forall; [apply incl_filter|exact Hd].
  - intros l Hl.
    apply (Permutation_in _ (Permutation_sym (sort_perm _ _))) in Hl.
    apply filter_In in Hl. apply Hl.
  - intros Hq. rewrite Hq. rewrite filter_keeps_all; [apply sort_perm|].
    eapply Forall_impl; [|exact Hv].
    intros l Hl. unfold matches.
    rewrite (valid_matchesSearch_empty l Hl). reflexivity.
  - intros _ _. apply sort_perm.
Qed.

(** C6: the GET request of [fetchListings] carries [include_seen] equal to
    the negation of [showOnlyUnseen], for the render the handler belongs
    to and for the fetch that follows a change of the toggle. *)
Theorem include_seen_negates_toggle :
  (forall s st srv sent done,
      no_token s = false ->
      exists q,
        run_requests (run (fetchListings s) srv sent done st)
        = (sent ++ [q])%list /\
        req_method q = GET /\
        req_url q = API_URL ++ "/listings?include_seen="
                            ++ (if showOnlyUnseen s then "false" else "true")) /\
  (forall st srv sent checked,
      no_token st = false ->
      showOnlyUnseen st <> checked ->
      exists q,
        run_requests (dispatch srv sent st (ChangeShowOnlyUnseen checked))
        = (sent ++ [q])%list /\
        req_method q = GET /\
        req_url q = API_URL ++ "/listings?include_seen="
                            ++ (if checked then "false" else "true")).
Proof.
  split.
  - intros s st srv sent done H. exists (listings_request s).
    rewrite (run_fetch_requests s st srv sent done H).
    repeat split. cbn. destruct (showOnlyUnseen s); reflexivity.
  - intros st srv sent checked H Hc. unfold dispatch. cbn.
    replace (Bool.eqb (showOnlyUnseen st) checked) with false
      by (destruct (showOnlyUnseen st), checked; try reflexivity; congruence).
    cbn. eexists. split; [apply run_fetch_requests; exact H|].
    split; [reflexivity|]. cbn. destruct checked; reflexivity.
Qed.




(** C7: the Mark as Seen control is rendered exactly for the listings
    whose [seen] is falsy, for a boolean [seen] those with [seen = false];
    clicking it sends POST listings/mark-seen with the one-element array
    of the listing's id string as body, followed at most by the GET that
    refreshes the list; and every request the component ever sends is one
    of GET listings, POST scrape, POST listings/mark-seen and POST
    listings/export, none of which asks for [seen] to be set to false. *)
Theorem mark_seen_only_forward :
  (forall index l card,
      valid l ->
      renderCard index l = Ok card ->
      (card_button card <> None <-> ToBoolean (get_opt l "seen") = false) /\
      (forall b, get_opt l "seen" = Val (JBool b) ->
                 (card_button card <> None <-> b = false)) /\
      (forall btn, card_button card = Some btn ->
         exists id,
           get_opt l "id" = Val (JStr id) /\
           btn = ("Mark as Seen", ClickMarkAsSeen [Val (JStr id)]))) /\
  (forall st srv sent done id,
      exists rest,
        run_requests
          (run (handler st (ClickMarkAsSeen [Val (JStr id)])) srv sent done st)
        = (sent ++ mkRequest POST (API_URL ++ "/listings/mark-seen")
                             (Some (JArr [JStr id]))
                             [("Authorization", bearer st)] false None
                :: rest)%list /\
        (rest = [] \/ rest = [listings_request st])) /\
  (forall st srv sent ev,
      Forall dashboard_request sent ->
      Forall dashboard_request (run_requests (dispatch srv sent st ev))).
Proof.
  split; [|split].
  - intros index l card Hv Hc.
    rewrite (renderCard_valid index l Hv) in Hc. injection Hc as <-.
    destruct (valid_object l Hv) as [props ->].
    destruct (valid_fields props Hv) as ([id Hid] & _).
    cbn. rewrite Hid. split; [|split].
    + destruct (ToBoolean (lookup "seen" props)); cbn;
        split; congruence.
    + intros b ->. destruct b; cbn; split; congruence.
    + intros btn. destruct (ToBoolean (lookup "seen" props)); cbn;
        [discriminate|].
      intros [= <-]. exists id. auto.
  - intros st srv sent done id. cbn [handler]. unfold markAsSeen.
    rewrite run_try_catch, run_bind. cbn.
    destruct (srv sent (markSeen_request st [Val (JStr id)])) as [data|e].
    + cbn.
      destruct (run_fetch_completes st st srv
                  (sent ++ [markSeen_request st [Val (JStr id)]]) done)
        as (st' & ->).
      cbn. rewrite <- app_assoc. cbn.
      destruct (no_token st); eexists; split; try reflexivity; auto.
    + cbn. destruct (catch_with_sets "mark listings as seen" e)
        as (msg & _ & ->).
      cbn. exists []. split; [reflexivity|auto].
  - intros st srv sent ev. apply dispatch_requests.
Qed.


(** ** Further properties of the handlers *)

Lemma isValidListing_object (l : value) :
  l <> JNull -> isValidListing l = Ok (has_string_fields l).
Proof.
  intros Hl. destruct l; try reflexivity; [congruence|].
  unfold isValidListing, has_string_fields, is_string, rand.
  rewrite !get_object. cbn.
  destruct (jstype_eqb (typeof (lookup "id" props)) TString); cbn; auto.
  destruct (jstype_eqb (typeof (lookup "title" props)) TString); cbn; auto.
  destruct (jstype_eqb (typeof (lookup "price" props)) TString); cbn; auto.
  destruct (jstype_eqb (typeof (lookup "location" props)) TString); cbn; auto.
Qed.

Lemma validation_null_throws (items : list value) :
  In JNull items -> filterM isValidListing items = Throw TypeError.
Proof.
  induction items as [|x items IH]; [intros []|].
  intros Hin. cbn [filterM].
  destruct x; try reflexivity;
    (destruct Hin as [Hx|Hin]; [discriminate Hx|]);
    rewrite (IH Hin);
    (rewrite isValidListing_object by discriminate); reflexivity.
Qed.

(** X1: the validation of a response array throws exactly when the array
    holds a [null]; otherwise it retains, in order, the elements that are
    objects with string [id], [title], [price], [location] and [link]. *)
Theorem validation_retains_well_formed (items : list value) :
  (In JNull items -> filterM isValidListing items = Throw TypeError) /\
  (~ In JNull items ->
   filterM isValidListing items = Ok (filter has_string_fields items)).
Proof.
  split.
  - apply validation_null_throws.
  - intros Hn. apply filterM_Ok. apply Forall_forall. intros x Hx.
    apply isValidListing_object. intros ->. exact (Hn Hx).
Qed.

(** X2: a response array that holds a [null] makes the whole fetch fail:
    the error is 'Failed to fetch listings. Please try again.' and the
    listings shown before stay, although the other elements were valid. *)
Theorem null_element_fails_fetch s st srv sent done (items : list value) :
  no_token s = false ->
  srv sent (listings_request s) = Resolved (JArr items) ->
  In JNull items ->
  let st' := run_state (run (fetchListings s) srv sent done st) in
  error st' = Some "Failed to fetch listings. Please try again." /\
  listings st' = listings st /\
  stats st' = stats st.
Proof.
  intros H Ho Hin st'. subst st'.
  pose proof (validation_null_throws items Hin) as Hf.
  unfold fetchListings. rewrite H. cbn. rewrite Ho. cbn. rewrite Hf.
  cbn. auto.
Qed.


(** X4: without a token [fetchListings] sends nothing and sets the error
    'Authentication token is missing', which is never displayed: the
    component then renders only the prompt to log in. *)
Theorem fetch_without_token st srv sent done :
  no_token st = true ->
  Forall valid (listings st) ->
  let r := run (fetchListings st) srv sent done st in
  run_requests r = sent /\
  error (run_state r) = Some "Authentication token is missing" /\
  render (run_state r) = Ok (LoginPrompt "Please log in to view listings").
Proof.
  intros H Hv r. subst r.
  rewrite (run_fetch_no_token st st srv sent done H). cbn.
  repeat split.
  destruct (shown_valid st Hv) as [keep Hk].
  unfold render, filteredAndSortedListings in *. cbn.
  destruct (filterM _ _); [|discriminate]. cbn.
  unfold no_token in *. cbn. rewrite H. reflexivity.
Qed.

(** X5: after a successful fetch the two counters are numbers and
    [stats.unseen] never exceeds [stats.total]. *)
Theorem unseen_at_most_total
        s st srv sent done (items validListings : list value) :
  no_token s = false ->
  srv sent (listings_request s) = Resolved (JArr items) ->
  filterM isValidListing items = Ok validListings ->
  let st' := run_state (run (fetchListings s) srv sent done st) in
  exists n m,
    total (stats st') = Val (JNum n) /\
    unseen (stats st') = Val (JNum m) /\
    0 <= m <= n /\
    n <= Z.of_nat (List.length items).
Proof.
  intros H Ho Hf st'. subst st'.
  rewrite (run_fetch_ok s st srv sent done items validListings H Ho Hf).
  cbn -[filter get_opt]. eexists. eexists. split; [reflexivity|].
  split; [reflexivity|].
  pose proof (filter_length_le
                (fun l : value => negb (ToBoolean (get_opt l "seen")))
                validListings) as Hle.
  assert (Hlen : (List.length validListings <= List.length items)%nat).
  { clear -Hf. revert validListings Hf.
    induction items as [|x items IH]; cbn; intros vs Hf.
    - injection Hf as <-. cbn. lia.
    - destruct (isValidListing x) as [keep|]; cbn in Hf; [|discriminate].
      destruct (filterM isValidListing items) as [rest|]; cbn in Hf;
        [|discriminate].
      injection Hf as <-. specialize (IH rest eq_refl).
      destruct keep; cbn; lia. }
  lia.
Qed.




(** X9: when POST scrape answers with an object and the refresh that
    follows fails, the counters of the scrape answer stay on display,
    beside the error and the listings shown before. *)
Theorem scrape_then_failed_fetch
        s st srv sent done (props : list (string * value)) :
  srv sent (scrape_request s) = Resolved (JObj props) ->
  fetch_fails s (srv (sent ++ [scrape_request s])%list (listings_request s)) ->
  let st' := run_state (run (scrapeListings s) srv sent done st) in
  stats st' = mkStats (lookup "total_listings" props)
                      (lookup "unseen_listings" props) /\
  listings st' = listings st /\
  scraping st' = false /\
  exists msg, error st' = Some msg /\ msg <> "".
Proof.
  intros Ho Hf st'. subst st'.
  unfold scrapeListings. cbn -[fetchListings]. rewrite Ho.
  cbn -[fetchListings]. rewrite run_finally, run_try_catch.
  set (st1 := setStats _ (setScraping true st)).
  destruct (run_fetch_completes s st1 srv (sent ++ [scrape_request s]) done)
    as (st2 & Hr).
  destruct (run_fetch_fails s st1 srv (sent ++ [scrape_request s]) done Hf)
    as (msg & Hm & Hs).
  rewrite Hr in Hs |- *. cbn in Hs |- *. subst st2. cbn.
  repeat split. exists msg. auto.
Qed.

(** X10: when POST scrape answers with an object and the refresh that
    follows succeeds, the state holds the listings retained from the GET
    answer and the counters computed from them, whatever counts the
    scrape answer carried. *)
Theorem scrape_then_fetch
        s st srv sent done (props : list (string * value))
        (items validListings : list value) :
  no_token s = false ->
  srv sent (scrape_request s) = Resolved (JObj props) ->
  srv (sent ++ [scrape_request s])%list (listings_request s)
  = Resolved (JArr items) ->
  filterM isValidListing items = Ok validListings ->
  let r := run (scrapeListings s) srv sent done st in
  run_requests r = (sent ++ [scrape_request s; listings_request s])%list /\
  listings (run_state r) = validListings /\
  stats (run_state r)
  = mkStats (length_of validListings)
            (length_of
               (filter (fun l : value => negb (ToBoolean (get_opt l "seen")))
                       validListings)) /\
  error (run_state r) = None /\
  scraping (run_state r) = false.
Proof.
  intros H Ho Hg Hf r. subst r.
  unfold scrapeListings. cbn -[fetchListings]. rewrite Ho.
  cbn -[fetchListings]. rewrite run_finally, run_try_catch.
  rewrite (run_fetch_ok s _ srv _ done items validListings H Hg Hf).
  cbn -[filter get_opt]. rewrite <- app_assoc. auto.
Qed.




(** X14: [handleRetry] counts the retries that fail: after a retry whose
    fetch fails [retryCount] is one more than before, after a retry whose
    fetch succeeds it is back to 0. *)
Theorem retry_counter s st srv sent done :
  (fetch_fails s (srv sent (listings_request s)) ->
   retryCount (run_state (run (handleRetry s) srv sent done st))
   = retryCount st + 1) /\
  (forall items validListings,
      no_token s = false ->
      srv sent (listings_request s) = Resolved (JArr items) ->
      filterM isValidListing items = Ok validListings ->
      retryCount (run_state (run (handleRetry s) srv sent done st)) = 0).
Proof.
  split.
  - intros Hf. unfold handleRetry. cbn -[fetchListings].
    destruct (run_fetch_fails s (setRetryCount (fun prev => prev + 1) st)
                srv sent done Hf) as (msg & _ & ->).
    reflexivity.
  - intros items vs H Ho Hf. unfold handleRetry. cbn -[fetchListings].
    rewrite (run_fetch_ok s _ srv sent done items vs H Ho Hf). reflexivity.
Qed.

(** X15: a request rejected with status 401 is reported the same way by
    every handler: the error is 'Session expired. Please login again.',
    whatever code or detail the rejection carries. *)
Theorem session_expired_everywhere s st srv sent done (e : AxiosError) :
  err_status e = Some 401 ->
  (no_token s = false ->
   srv sent (listings_request s) = Rejected (IsAxiosError e) ->
   error (run_state (run (fetchListings s) srv sent done st))
   = Some "Session expired. Please login again.") /\
  (srv sent (scrape_request s) = Rejected (IsAxiosError e) ->
   error (run_state (run (scrapeListings s) srv sent done st))
   = Some "Session expired. Please login again.") /\
  (forall ids,
      srv sent (markSeen_request s ids) = Rejected (IsAxiosError e) ->
      error (run_state (run (markAsSeen s ids) srv sent done st))
      = Some "Session expired. Please login again.") /\
  (forall f,
      srv sent (export_request s f) = Rejected (IsAxiosError e) ->
      error (run_state (run (exportListings s f) srv sent done st))
      = Some "Session expired. Please login again.").
Proof.
  intros He.
  assert (H401 : status_is e 401 = true).
  { unfold status_is. rewrite He. reflexivity. }
  split; [|split; [|split]].
  - intros H Ho. unfold fetchListings. rewrite H. cbn. rewrite Ho. cbn.
    rewrite H401. reflexivity.
  - intros Ho. unfold scrapeListings. cbn. rewrite Ho. cbn.
    rewrite H401. reflexivity.
  - intros ids Ho. unfold markAsSeen. cbn -[fetchListings]. rewrite Ho. cbn.
    rewrite H401. reflexivity.
  - intros f Ho. unfold exportListings. cbn. rewrite Ho. cbn.
    rewrite H401. reflexivity.
Qed.

(** ** Further properties of the displayed list *)

Lemma prefix_toLowerCase (t s : string) :
  String.prefix t s = true ->
  String.prefix (toLowerCase t) (toLowerCase s) = true.
Proof.
  revert t. induction s as [|b s IH]; intros [|a t]; cbn; auto.
  destruct (ascii_dec a b) as [->|]; [|discriminate].
  intros H. destruct (ascii_dec (lower_ascii b) (lower_ascii b));
    [auto|congruence].
Qed.

Lemma includes_toLowerCase (s t : string) :
  includes s t = true -> includes (toLowerCase s) (toLowerCase t) = true.
Proof.
  induction s as [|c s IH]; cbn [includes toLowerCase].
  - destruct (String.prefix t "") eqn:Hp; [|discriminate].
    intros _. apply prefix_toLowerCase in Hp. cbn [toLowerCase] in Hp.
    rewrite Hp. reflexivity.
  - destruct (String.prefix t (String c s)) eqn:Hp.
    + intros _. apply prefix_toLowerCase in Hp. cbn [toLowerCase] in Hp.
      rewrite Hp. reflexivity.
    + intros H. rewrite (IH H).
      destruct (String.prefix (toLowerCase t) _); reflexivity.
Qed.

(** X17: the search ignores case: a listing whose title, location or
    price is an ASCII string containing some text is found by that text
    typed in any case. *)
Theorem search_ignores_case (l : value) (k text q q' : string) :
  valid l ->
  k = "title" \/ k = "location" \/ k = "price" ->
  get_opt l k = Val (JStr text) ->
  ascii_only text = true -> ascii_only q = true -> ascii_only q' = true ->
  includes text q = true ->
  toLowerCase q' = toLowerCase q ->
  matchesSearch q' l = Ok true.
Proof.
  intros Hv Hk Hg _ _ _ Hi Hq.
  destruct (valid_object l Hv) as [props ->].
  destruct (valid_fields props Hv) as (_ & [t Ht] & [p Hp] & [c Hc] & _).
  apply includes_toLowerCase in Hi.
  unfold matchesSearch, ror. rewrite !get_object, Ht, Hp, Hc, Hq. cbn.
  cbn in Hg.
  destruct Hk as [-> | [-> | ->]]; cbn in Hg.
  - rewrite Ht in Hg. injection Hg as ->. rewrite Hi. reflexivity.
  - rewrite Hc in Hg. injection Hg as ->. rewrite Hi.
    destruct (includes (toLowerCase t) _); reflexivity.
  - rewrite Hp in Hg. injection Hg as ->. rewrite Hi.
    destruct (includes (toLowerCase t) _); cbn; [reflexivity|].
    destruct (includes (toLowerCase c) _); reflexivity.
Qed.




Lemma render_grid (s : State) (m : Main) (cards : list Card) :
  Forall valid (listings s) ->
  render s = Ok (DashboardView m) ->
  body m = Grid cards ->
  exists shown,
    filteredAndSortedListings s = Ok shown /\
    Forall2 (fun l c => valid l /\ exists index, renderCard index l = Ok c)
            shown cards.
Proof.
  intros Hv Hr Hb. destruct (shown_valid s Hv) as [keep Hk].
  set (shown := sort byScrapedAtDesc (filter keep (listings s))) in *.
  assert (Hs : Forall valid shown) by (apply Forall_shown, Hv).
  destruct (mapiM_renderCard 0 shown Hs) as (cards' & Hm & Hc).
  exists shown. split; [exact Hk|].
  unfold render in Hr. rewrite Hk in Hr. cbn [rbind] in Hr.
  destruct (loading s); [discriminate|].
  destruct (no_token s); [discriminate|].
  destruct shown as [|x shown'].
  - cbn in Hr. injection Hr as <-. discriminate.
  - rewrite Hm in Hr. cbn in Hr. injection Hr as <-. cbn in Hb.
    injection Hb as <-. exact Hc.
Qed.

(** X19: the grid has one card per displayed listing, in the same order;
    each card shows the title, price, location and link of its listing,
    and carries the 'unseen' class exactly when it carries the Mark as
    Seen button. *)
Theorem cards_follow_listings (s : State) (m : Main) (cards : list Card) :
  Forall valid (listings s) ->
  render s = Ok (DashboardView m) ->
  body m = Grid cards ->
  exists shown,
    filteredAndSortedListings s = Ok shown /\
    List.length cards = List.length shown /\
    Forall2 (fun (l : value) c =>
               card_title c = get_opt l "title" /\
               card_price c = get_opt l "price" /\
               card_location c = get_opt l "location" /\
               card_href c = get_opt l "link" /\
               (card_className c = "listing-card unseen"
                <-> card_button c <> None))
            shown cards.
Proof.
  intros Hv Hr Hb.
  destruct (render_grid s m cards Hv Hr Hb) as (shown & Hk & Hc).
  exists shown. split; [exact Hk|].
  split; [symmetry; exact (Forall2_length Hc)|].
  eapply Forall2_impl; [|exact Hc].
  intros l c (Hl & index & Hrc).
  rewrite (renderCard_valid index l Hl) in Hrc. injection Hrc as <-.
  destruct (valid_object l Hl) as [props ->].
  cbn -[ToBoolean].
  generalize (ToBoolean (lookup "seen" props)). intros seen.
  repeat split; try reflexivity.
  - intros Hcls. destruct seen; cbn in *; [discriminate Hcls|discriminate].
  - intros Hbtn. destruct seen; cbn in *; [congruence|reflexivity].
Qed.


Lemma fetchListings_authorized (s : State) :
  within (fun _ => True) (authorized s) (fetchListings s).
Proof.
  unfold fetchListings. destruct (no_token s); [cbn; tauto|].
  apply within_finally; [|cbn; tauto].
  apply within_try_catch.
  - cbn. repeat split; [left; reflexivity|].
    intros [data|e]; [|exact I].
    destruct data as [|[]]; try (cbn; tauto).
    cbn [bind].
    destruct (filterM isValidListing items) as [vs|e]; [|exact I].
    cbn. split; [exact I|].
    destruct (filterM notSeen vs); cbn; tauto.
  - intros e. destruct (fetchListings_catch_sets e) as (msg & _ & ->).
    cbn. tauto.
Qed.

Lemma handler_authorized (s : State) (ev : event) :
  within (fun _ => True) (authorized s) (handler s ev).
Proof.
  assert (Hc : forall what e,
             within (fun _ => True) (authorized s) (catch_with what e)).
  { intros what e. destruct (catch_with_sets what e) as (msg & _ & ->).
    cbn. tauto. }
  destruct ev; cbn [handler]; try (cbn; tauto).
  - apply within_finally; [|cbn; tauto].
    apply within_try_catch; [|apply Hc].
    cbn. repeat split; [left; reflexivity|].
    intros [data|e]; [|exact I]. cbn [bind].
    destruct (get data "total_listings"); [|exact I].
    destruct (get data "unseen_listings"); [|exact I].
    cbn. split; [exact I|]. apply fetchListings_authorized.
  - apply within_try_catch; [|apply Hc].
    cbn. split; [left; reflexivity|]. intros [data|e]; cbn; tauto.
  - cbn. split; [exact I|]. apply fetchListings_authorized.
  - apply within_try_catch; [|apply Hc].
    cbn. split; [left; reflexivity|].
    intros [data|e]; [|exact I]. apply fetchListings_authorized.
Qed.

(** X21: no request leaves the component without the Authorization
    header: every request of every handler, and of the fetch the effect
    runs, carries 'Bearer ' followed by the token of its render. *)
Theorem every_request_authorized s st srv done (ev : event) :
  Forall (authorized s) (run_requests (run (handler s ev) srv [] done st)) /\
  Forall (authorized s) (run_requests (run (fetchListings s) srv [] done st)).
Proof.
  split.
  - apply (run_within_requests (fun _ => True)); [|constructor].
    apply handler_authorized.
  - apply (run_within_requests (fun _ => True)); [|constructor].
    apply fetchListings_authorized.
Qed.

(** X22: typing in the search box, ticking the toggle to the value it
    has, and logging out send no request: the search is done on the
    listings already held, the effect refetches only when the toggle
    changes, and logout calls [logout] and navigates to /login. *)
Theorem local_events_send_nothing st srv sent :
  (forall q,
      dispatch srv sent st (ChangeSearch q)
      = mkRun (Ok tt) (setSearchQuery q st) sent []) /\
  (let r := dispatch srv sent st (ChangeShowOnlyUnseen (showOnlyUnseen st)) in
   run_requests r = sent /\ run_state r = st) /\
  (let r := dispatch srv sent st ClickLogout in
   run_requests r = sent /\
   run_effects r = [Logout; Navigate "/login"]).
Proof.
  split; [|split].
  - intros q. unfold dispatch. cbn. rewrite Bool.eqb_reflx. reflexivity.
  - unfold dispatch. cbn. rewrite Bool.eqb_reflx. cbn.
    split; [reflexivity|]. destruct st; reflexivity.
  - unfold dispatch. cbn. rewrite Bool.eqb_reflx. cbn. auto.
Qed.

(** ** Keys of the cards *)

Lemma dash_free_app (u v : string) :
  dash_free (u ++ String "-" v) = false.
Proof.
  induction u as [|c u IH]; cbn; [reflexivity|].
  rewrite IH. apply andb_false_r.
Qed.

Lemma append_dash_inj (a b d1 d2 : string) :
  dash_free d1 = true -> dash_free d2 = true ->
  a ++ String "-" d1 = b ++ String "-" d2 -> d1 = d2.
Proof.
  intros H1 H2. revert b.
  induction a as [|c a IH]; intros [|c' b]; cbn; intros [= E].
  - exact E.
  - subst d1. rewrite dash_free_app in H1. discriminate.
  - subst d2. rewrite dash_free_app in H2. discriminate.
  - apply (IH b). assumption.
Qed.

Lemma dash_free_uint (d : Decimal.uint) :
  dash_free (NilEmpty.string_of_uint d) = true.
Proof. induction d; cbn; auto. Qed.

Lemma dash_free_index (n : Z) : 0 <= n -> dash_free (string_of_Z n) = true.
Proof.
  intros Hn. unfold string_of_Z. destruct n as [|p|p]; [reflexivity| |lia].
  cbn. unfold NilZero.string_of_uint.
  destruct (Pos.to_uint p) eqn:E; try reflexivity;
    rewrite <- E; apply dash_free_uint.
Qed.

Lemma string_of_Z_inj (n m : Z) : string_of_Z n = string_of_Z m -> n = m.
Proof.
  unfold string_of_Z. intros H.
  assert (Hnn : forall z, Z.to_int z <> Decimal.Pos Decimal.Nil /\
                          Z.to_int z <> Decimal.Neg Decimal.Nil).
  { intros [|p|p]; cbn; split; try discriminate;
      intros [= E]; exact (Unsigned.to_uint_nonnil p E). }
  assert (E : Some (Z.to_int n) = Some (Z.to_int m)).
  { rewrite <- (NilZero.isi (Z.to_int n)) by apply Hnn.
    rewrite <- (NilZero.isi (Z.to_int m)) by apply Hnn.
    rewrite H. reflexivity. }
  injection E as E.
  rewrite <- (DecimalZ.of_to n), <- (DecimalZ.of_to m), E. reflexivity.
Qed.

Lemma mapiM_keys (i : Z) (shown : list value) (cards : list Card) :
  0 <= i ->
  Forall valid shown ->
  mapiM renderCard i shown = Ok cards ->
  NoDup (map card_key cards) /\
  Forall (fun c => exists id j,
              i <= j /\ card_key c = id ++ "-" ++ string_of_Z j) cards.
Proof.
  intros Hi Hv. revert i Hi cards.
  induction Hv as [|l shown Hl _ IH]; intros i Hi cards; cbn.
  - intros [= <-]. split; constructor.
  - rewrite (renderCard_valid i l Hl). cbn [rbind].
    destruct (mapiM renderCard (i + 1) shown) as [rest|] eqn:Hm;
      [|discriminate].
    cbn [rbind]. intros [= <-].
    destruct (IH (i + 1) ltac:(lia) rest Hm) as [Hnd Hall].
    split.
    + cbn [map card_key]. constructor; [|exact Hnd].
      intros Hin. apply in_map_iff in Hin. destruct Hin as (c & Hk & Hc).
      rewrite Forall_forall in Hall.
      destruct (Hall c Hc) as (id & j & Hj & Hkey).
      rewrite Hkey in Hk.
      apply append_dash_inj in Hk;
        [|apply dash_free_index; lia|apply dash_free_index; lia].
      apply string_of_Z_inj in Hk. lia.
    + constructor.
      * eexists. exists i. split; [lia|reflexivity].
      * eapply Forall_impl; [|exact Hall].
        intros c (id & j & Hj & Hkey). exists id, j. split; [lia|exact Hkey].
Qed.

(** X23: the keys of the cards are pairwise distinct, also when the
    server sends the same listing id twice: the position in the list is
    part of the key. *)
Theorem card_keys_distinct (s : State) (m : Main) (cards : list Card) :
  Forall valid (listings s) ->
  render s = Ok (DashboardView m) ->
  body m = Grid cards ->
  NoDup (map card_key cards).
Proof.
  intros Hv Hr Hb. destruct (shown_valid s Hv) as [keep Hk].
  set (shown := sort byScrapedAtDesc (filter keep (listings s))) in *.
  assert (Hs : Forall valid shown) by (apply Forall_shown, Hv).
  unfold render in Hr. rewrite Hk in Hr. cbn [rbind] in Hr.
  destruct (loading s); [discriminate|].
  destruct (no_token s); [discriminate|].
  destruct (mapiM renderCard 0 shown) as [cards'|] eqn:Hm.
  - destruct (mapiM_keys 0 shown cards' ltac:(lia) Hs Hm) as [Hnd _].
    destruct shown as [|x rest].
    + cbn in Hr. injection Hr as <-. discriminate.
    + cbn in Hr. injection Hr as <-. cbn in Hb.
      injection Hb as <-. exact Hnd.
  - destruct shown as [|x rest]; [discriminate Hm|discriminate Hr].
Qed.

(** ** What every reachable state satisfies *)

(** X24: whatever the user does and whatever the server answers, every
    listing the component holds is an object whose [id], [title],
    [price], [location] and [link] are strings. *)
Theorem reachable_invariant (tok : option string) (st : State) :
  reachable tok st ->
  Forall (fun l => has_string_fields l = true) (listings st).
Proof.
  intros Hr. eapply Forall_impl; [|exact (reachable_valid tok st Hr)].
  intros l Hl. destruct (valid_object l Hl) as [props ->].
  unfold valid in Hl. rewrite isValidListing_object in Hl by discriminate.
  injection Hl as Hl. exact Hl.
Qed.

End Dashboard.

(** ** The component on the sample data *)

(** C1: with the unseen-only toggle on, a successful scrape does not leave
    the counts of POST scrape on display.  The server answers POST scrape
    with [{total_listings: 2, unseen_listings: 1}]; [scrapeListings] stores
    them and then awaits [fetchListings], which replaces them by the counts
    of the one unseen listing that GET listings?include_seen=false
    returns: the dashboard ends showing total 1, unseen 1. *)
Theorem scrape_stats_overwritten :
  let r := dispatch None store_server [] unseen_only ClickScrape in
  store_server [] (scrape_request None unseen_only)
  = Resolved (JObj [("total_listings", JNum 2); ("unseen_listings", JNum 1)]) /\
  run_requests r
  = [scrape_request None unseen_only; listings_request None unseen_only] /\
  run_result r = Ok tt /\
  error (run_state r) = None /\
  listings (run_state r) = [listing_bike] /\
  stats (run_state r) = mkStats (JNum 1) (JNum 1) /\
  stats (run_state r) <> mkStats (JNum 2) (JNum 1).
Proof.
  cbv zeta. repeat split; try reflexivity. vm_compute. discriminate.
Qed.



(** ** The theorems at the sample data *)

Lemma stats_derived_from_retained_witness :
  (no_token logged_in = false /\
   store_server [] (listings_request None logged_in)
   = Resolved (JArr [listing_bike; listing_sofa]) /\
   filterM isValidListing [listing_bike; listing_sofa]
   = Ok [listing_bike; listing_sofa] /\
   Forall seen_declared [listing_bike; listing_sofa]) /\
  let st' :=
    run_state (run (fetchListings None logged_in) store_server [] [] logged_in)
  in
  total (stats st') = Val (JNum 2) /\
  unseen (stats st')
  = length_of (filter seen_not_true [listing_bike; listing_sofa]).
Proof.
  assert (Hd : Forall seen_declared [listing_bike; listing_sofa]).
  { repeat constructor; eexists; reflexivity. }
  split; [repeat split; try reflexivity; exact Hd|].
  destruct (stats_derived_from_retained
              None logged_in logged_in store_server [] []
              [listing_bike; listing_sofa] [listing_bike; listing_sofa]
              eq_refl eq_refl eq_refl) as (_ & _ & Ht & _ & Hu).
  split; [exact Ht|exact (Hu Hd)].
Defined.


Lemma sorted_most_recent_first_witness :
  (Forall valid (listings loaded) /\
   Forall (dated sample_parse) (listings loaded) /\
   searchQuery loaded = "" /\
   ascii_only (searchQuery loaded) = true /\
   Forall ascii_listing (listings loaded)) /\
  exists shown,
    filteredAndSortedListings sample_parse loaded = Ok shown /\
    StronglySorted (newest_first sample_parse) shown /\
    (forall l, In l shown -> In l [listing_bike; listing_sofa]) /\
    Permutation [listing_bike; listing_sofa] shown /\
    Permutation (filter (matches "") [listing_bike; listing_sofa]) shown.
Proof.
  assert (Hv : Forall valid (listings loaded)).
  { repeat constructor. }
  assert (Hd : Forall (dated sample_parse) (listings loaded)).
  { repeat constructor; eexists; reflexivity. }
  assert (Ha : Forall ascii_listing (listings loaded)).
  { repeat constructor. }
  split; [repeat split; try reflexivity; assumption|].
  destruct (sorted_most_recent_first sample_parse loaded Hv Hd)
    as (shown & Hk & Hs & Hi & Hq & Hm).
  exists shown. split; [exact Hk|]. split; [exact Hs|].
  split; [exact Hi|]. split; [exact (Hq eq_refl)|exact (Hm eq_refl Ha)].
Defined.


Lemma include_seen_negates_toggle_witness :
  (no_token unseen_only = false /\ showOnlyUnseen loaded <> true) /\
  (exists q,
     run_requests (run (fetchListings None unseen_only) store_server [] []
                       unseen_only)
     = [q] /\
     req_method q = GET /\
     req_url q = "http://localhost:8000/listings?include_seen=false") /\
  (exists q,
     run_requests (dispatch None store_server [] loaded
                            (ChangeShowOnlyUnseen true))
     = [q] /\
     req_method q = GET /\
     req_url q = "http://localhost:8000/listings?include_seen=false").
Proof.
  split; [split; [reflexivity|discriminate]|].
  destruct (include_seen_negates_toggle None) as (H1 & H2).
  split.
  - apply (H1 unseen_only unseen_only store_server [] []). reflexivity.
  - apply (H2 loaded store_server [] true); [reflexivity|discriminate].
Defined.

Lemma mark_seen_only_forward_witness :
  (valid listing_bike /\
   Forall (dashboard_request None) []) /\
  (exists card,
     renderCard sample_parse 0 listing_bike = Ok card /\
     (card_button card <> None
      <-> ToBoolean (get_opt listing_bike "seen") = false)) /\
  Forall (dashboard_request None)
         (run_requests
            (dispatch None store_server [] loaded
                      (ClickMarkAsSeen [Val (JStr "olx-1001")]))).
Proof.
  split; [split; [reflexivity|constructor]|].
  destruct (mark_seen_only_forward None sample_parse) as (H1 & _ & H3).
  split.
  - eexists. split; [reflexivity|].
    apply (H1 0 listing_bike); reflexivity.
  - apply H3. constructor.
Defined.




(** ** The further properties at the sample data *)

Lemma validation_retains_well_formed_witness :
  (In JNull [listing_bike; JNull; listing_sofa] /\
   ~ In JNull [JArr []; listing_bike; JStr "x"]) /\
  filterM isValidListing [listing_bike; JNull; listing_sofa]
  = Throw TypeError /\
  filterM isValidListing [JArr []; listing_bike; JStr "x"] = Ok [listing_bike].
Proof.
  assert (H1 : In JNull [listing_bike; JNull; listing_sofa]).
  { right. left. reflexivity. }
  assert (H2 : ~ In JNull [JArr []; listing_bike; JStr "x"]).
  { intros [H|[H|[H|[]]]]; discriminate H. }
  split; [split; assumption|].
  split.
  - apply (proj1 (validation_retains_well_formed _) H1).
  - apply (proj2 (validation_retains_well_formed _) H2).
Defined.

Lemma null_element_fails_fetch_witness :
  (no_token loaded = false /\
   null_server [] (listings_request None loaded)
   = Resolved (JArr [listing_bike; JNull; listing_sofa]) /\
   In JNull [listing_bike; JNull; listing_sofa]) /\
  let st' :=
    run_state (run (fetchListings None loaded) null_server [] [] loaded) in
  error st' = Some "Failed to fetch listings. Please try again." /\
  listings st' = listings loaded /\
  stats st' = stats loaded.
Proof.
  assert (H1 : In JNull [listing_bike; JNull; listing_sofa]).
  { right. left. reflexivity. }
  split; [repeat split; try reflexivity; exact H1|].
  apply (null_element_fails_fetch None loaded loaded null_server [] []
           [listing_bike; JNull; listing_sofa] eq_refl eq_refl H1).
Defined.

Lemma fetch_without_token_witness :
  (no_token logged_out = true /\ Forall valid (listings logged_out)) /\
  let r := run (fetchListings None logged_out) store_server [] [] logged_out in
  run_requests r = [] /\
  error (run_state r) = Some "Authentication token is missing" /\
  render sample_parse (run_state r)
  = Ok (LoginPrompt "Please log in to view listings").
Proof.
  split; [split; [reflexivity|constructor]|].
  apply (fetch_without_token None sample_parse logged_out store_server [] []).
  - reflexivity.
  - constructor.
Defined.

Lemma unseen_at_most_total_witness :
  (no_token logged_in = false /\
   store_server [] (listings_request None logged_in)
   = Resolved (JArr [listing_bike; listing_sofa]) /\
   filterM isValidListing [listing_bike; listing_sofa]
   = Ok [listing_bike; listing_sofa]) /\
  let st' :=
    run_state (run (fetchListings None logged_in) store_server [] [] logged_in)
  in
  exists n m,
    total (stats st') = Val (JNum n) /\
    unseen (stats st') = Val (JNum m) /\
    0 <= m <= n /\
    n <= Z.of_nat (List.length [listing_bike; listing_sofa]).
Proof.
  split; [repeat split; reflexivity|].
  apply (unseen_at_most_total None logged_in logged_in store_server [] []
           [listing_bike; listing_sofa] [listing_bike; listing_sofa]
           eq_refl eq_refl eq_refl).
Defined.



Lemma scrape_then_failed_fetch_witness :
  (flaky_server [] (scrape_request None logged_in)
   = Resolved (JObj [("total_listings", JNum 2); ("unseen_listings", JNum 1)]) /\
   fetch_fails logged_in
     (flaky_server [scrape_request None logged_in]
                   (listings_request None logged_in))) /\
  let st' :=
    run_state (run (scrapeListings None logged_in) flaky_server [] []
                   logged_in) in
  stats st' = mkStats (JNum 2) (JNum 1) /\
  listings st' = [] /\
  scraping st' = false /\
  exists msg, error st' = Some msg /\ msg <> "".
Proof.
  assert (Hf : fetch_fails logged_in
                 (flaky_server [scrape_request None logged_in]
                               (listings_request None logged_in))).
  { eapply fails_rejected; reflexivity. }
  split; [split; [reflexivity|exact Hf]|].
  apply (scrape_then_failed_fetch None logged_in logged_in flaky_server [] []
           [("total_listings", JNum 2); ("unseen_listings", JNum 1)]
           eq_refl Hf).
Defined.

Lemma scrape_then_fetch_witness :
  (no_token unseen_only = false /\
   store_server [] (scrape_request None unseen_only)
   = Resolved (JObj [("total_listings", JNum 2); ("unseen_listings", JNum 1)]) /\
   store_server [scrape_request None unseen_only]
                (listings_request None unseen_only)
   = Resolved (JArr [listing_bike]) /\
   filterM isValidListing [listing_bike] = Ok [listing_bike]) /\
  let r := run (scrapeListings None unseen_only) store_server [] []
               unseen_only in
  run_requests r
  = [scrape_request None unseen_only; listings_request None unseen_only] /\
  listings (run_state r) = [listing_bike] /\
  stats (run_state r) = mkStats (JNum 1) (JNum 1) /\
  error (run_state r) = None /\
  scraping (run_state r) = false.
Proof.
  split; [repeat split; reflexivity|].
  apply (scrape_then_fetch None unseen_only unseen_only store_server [] []
           [("total_listings", JNum 2); ("unseen_listings", JNum 1)]
           [listing_bike] [listing_bike] eq_refl eq_refl eq_refl eq_refl).
Defined.




Lemma retry_counter_witness :
  (fetch_fails loaded (down_server [] (listings_request None loaded)) /\
   no_token loaded = false /\
   store_server [] (listings_request None loaded)
   = Resolved (JArr [listing_bike; listing_sofa]) /\
   filterM isValidListing [listing_bike; listing_sofa]
   = Ok [listing_bike; listing_sofa]) /\
  retryCount (run_state (run (handleRetry None loaded) down_server [] []
                             (setRetryCount (fun _ => 2) loaded))) = 2 + 1 /\
  retryCount (run_state (run (handleRetry None loaded) store_server [] []
                             (setRetryCount (fun _ => 2) loaded))) = 0.
Proof.
  assert (Hf : fetch_fails loaded
                 (down_server [] (listings_request None loaded))).
  { eapply fails_rejected; reflexivity. }
  split; [repeat split; try reflexivity; exact Hf|].
  split.
  - apply (proj1 (retry_counter None loaded
                    (setRetryCount (fun _ => 2) loaded) down_server [] []) Hf).
  - apply (proj2 (retry_counter None loaded
                    (setRetryCount (fun _ => 2) loaded) store_server [] [])
             [listing_bike; listing_sofa] [listing_bike; listing_sofa]
             eq_refl eq_refl eq_refl).
Defined.

Lemma session_expired_everywhere_witness :
  (err_status unauthorized = Some 401 /\
   no_token loaded = false /\
   (forall q, expired_server [] q = Rejected (IsAxiosError unauthorized))) /\
  error (run_state (run (fetchListings None loaded) expired_server [] []
                        loaded))
  = Some "Session expired. Please login again." /\
  error (run_state (run (scrapeListings None loaded) expired_server [] []
                        loaded))
  = Some "Session expired. Please login again." /\
  error (run_state (run (markAsSeen None loaded [Val (JStr "olx-1001")])
                        expired_server [] [] loaded))
  = Some "Session expired. Please login again." /\
  error (run_state (run (exportListings None loaded csv) expired_server [] []
                        loaded))
  = Some "Session expired. Please login again.".
Proof.
  split; [repeat split|].
  destruct (session_expired_everywhere None loaded loaded expired_server
              [] [] unauthorized eq_refl) as (H1 & H2 & H3 & H4).
  split; [apply H1; reflexivity|].
  split; [apply H2; reflexivity|].
  split; [apply H3; reflexivity|apply H4; reflexivity].
Defined.

Lemma search_ignores_case_witness :
  (valid listing_bike /\
   get_opt listing_bike "location" = Val (JStr "Krakow") /\
   ascii_only "Krakow" = true /\ ascii_only "rak" = true /\
   ascii_only "RAK" = true /\
   includes "Krakow" "rak" = true /\
   toLowerCase "RAK" = toLowerCase "rak") /\
  matchesSearch "RAK" listing_bike = Ok true.
Proof.
  split; [repeat split|].
  apply (search_ignores_case listing_bike "location" "Krakow" "rak" "RAK");
    try reflexivity.
  right. left. reflexivity.
Defined.


Lemma cards_follow_listings_witness :
  Forall valid (listings loaded) /\
  exists m cards shown,
    render sample_parse loaded = Ok (DashboardView m) /\
    body m = Grid cards /\
    filteredAndSortedListings sample_parse loaded = Ok shown /\
    List.length cards = List.length shown /\
    Forall2 (fun (l : value) c =>
               card_title c = get_opt l "title" /\
               card_price c = get_opt l "price" /\
               card_location c = get_opt l "location" /\
               card_href c = get_opt l "link" /\
               (card_className c = "listing-card unseen"
                <-> card_button c <> None))
            shown cards.
Proof.
  assert (Hv : Forall valid (listings loaded)).
  { repeat constructor. }
  split; [exact Hv|].
  eexists. eexists.
  destruct (cards_follow_listings sample_parse loaded _ _ Hv
              eq_refl eq_refl) as (shown & H).
  exists shown. split; [reflexivity|]. split; [reflexivity|]. exact H.
Defined.


Lemma card_keys_distinct_witness :
  Forall valid (listings loaded_three) /\
  exists m cards,
    render sample_parse loaded_three = Ok (DashboardView m) /\
    body m = Grid cards /\
    NoDup (map card_key cards).
Proof.
  assert (Hv : Forall valid (listings loaded_three)).
  { repeat constructor. }
  split; [exact Hv|].
  eexists. eexists. split; [reflexivity|]. split; [reflexivity|].
  apply (card_keys_distinct sample_parse loaded_three _ _ Hv
           eq_refl eq_refl).
Defined.

Lemma reachable_invariant_witness :
  let st :=
    run_state
      (dispatch None store_server [] (initial (Some "secret")) Mount) in
  reachable None (Some "secret") st /\
  Forall (fun l => has_string_fields l = true) (listings st).
Proof.
  cbv zeta.
  assert (Hr : reachable None (Some "secret")
                 (run_state
                    (dispatch None store_server []
                              (initial (Some "secret")) Mount))).
  { apply reach_dispatch. apply reach_initial. }
  split; [exact Hr|].
  apply (reachable_invariant None (Some "secret") _ Hr).
Defined.
